(** * sitemap_gen.py: a shallow embedding and its verification

    The script walks the working directory for HTML pages, cuts the list of
    URL paths into chunks of [MAX_URLS], writes one sitemap fragment per
    chunk under a random name, rewrites the index [sitemap.xml] over the old
    and the new fragments, and writes [robots.txt].

    Conventions of the embedding:
    - a Python [str] is a [string]; code points are limited to 0..255;
    - the operating system is POSIX (separator [/]);
    - the working directory is a tree of regular files and directories
      (no symbolic links), the entries of a directory being kept in the
      order in which the system lists them, with distinct names;
    - every function that touches the outside world is a computation in the
      monad [M]: it threads a [World] and may raise an exception;
    - the random generator and the clock are oracles of the [World]: the
      statements hold for whatever they deliver. *)

From Stdlib Require Import Ascii List Arith Lia Bool DecimalString.
From Stdlib Require String.
From stdpp Require Import base decidable list sorting gmap strings.

#[local] Arguments String.append : simpl nomatch.

(** ** Python string primitives *)

Module PyStr.

Definition chr (n : nat) : ascii := ascii_of_nat n.
Definition ord (c : ascii) : nat := nat_of_ascii c.

(** [str.isspace] on one code point below 256: TAB..CR, FS..US, SPACE,
    NEL and NBSP. *)
Definition isspace (c : ascii) : bool :=
  let n := ord c in
  ((9 <=? n) && (n <=? 13)) || ((28 <=? n) && (n <=? 32))
  || (n =? 133) || (n =? 160).

(** The line feed, ["\n"] in the source. *)
Definition LF : string := String (chr 10) EmptyString.

(** [s.lstrip(chars)], the set of characters given as a predicate. *)
Fixpoint lstrip_by (p : ascii -> bool) (s : string) : string :=
  match s with
  | EmptyString => EmptyString
  | String c s' => if p c then lstrip_by p s' else s
  end.

(** [s.rstrip(chars)]. *)
Fixpoint rstrip_by (p : ascii -> bool) (s : string) : string :=
  match s with
  | EmptyString => EmptyString
  | String c s' =>
      match rstrip_by p s' with
      | EmptyString => if p c then EmptyString else String c EmptyString
      | r => String c r
      end
  end.

(** [s.strip()] *)
Definition strip (s : string) : string := rstrip_by isspace (lstrip_by isspace s).

(** [s.lstrip('/')] *)
Definition lstrip_slash (s : string) : string :=
  lstrip_by (Ascii.eqb "/"%char) s.

(** [s.startswith(p)] *)
Definition startswith (s p : string) : bool := String.prefix p s.

(** [s.endswith(suf)]: the last [len(suf)] characters are [suf]. *)
Definition endswith (s suf : string) : bool :=
  (String.length suf <=? String.length s)
  && String.eqb
       (String.substring (String.length s - String.length suf)
                         (String.length suf) s) suf.

(** [s[:-k]] for a positive [k]: everything but the last [k] characters,
    the empty string when [s] is shorter. *)
Definition drop_last (k : nat) (s : string) : string :=
  String.substring 0 (String.length s - k) s.

(** [s[k:]] *)
Fixpoint drop_first (k : nat) (s : string) : string :=
  match k, s with
  | S k', String _ s' => drop_first k' s'
  | _, _ => s
  end.

(** [s.replace(old, new)] for a non-empty [old]: the string is scanned
    from the left; wherever [old] starts, [new] is emitted and the scan
    resumes behind the occurrence.  [skip] counts the characters of the
    occurrence still to pass over. *)
Fixpoint replace_from (old new : string) (skip : nat) (s : string) : string :=
  match s with
  | EmptyString => EmptyString
  | String c s' =>
      match skip with
      | S k => replace_from old new k s'
      | O =>
          if String.prefix old s
          then new +:+ replace_from old new (String.length old - 1) s'
          else String c (replace_from old new 0 s')
      end
  end.

(** With an empty [old] Python puts [new] before every character and at
    the end. *)
Fixpoint intersperse_all (new s : string) : string :=
  match s with
  | EmptyString => new
  | String c s' => new +:+ String c (intersperse_all new s')
  end.

Definition replace (s old new : string) : string :=
  match old with
  | EmptyString => intersperse_all new s
  | _ => replace_from old new 0 s
  end.

(** [''.join(l)] *)
Definition join (l : list string) : string := foldr String.append "" l.

(** [str(n)] for a natural number. *)
Definition of_nat (n : nat) : string := NilEmpty.string_of_uint (Nat.to_uint n).

(** The lines of a text, as [s.split('\n')] gives them. *)
Fixpoint split_lines (s : string) : list string :=
  match s with
  | EmptyString => EmptyString :: nil
  | String c s' =>
      if Ascii.eqb c (chr 10) then EmptyString :: split_lines s'
      else match split_lines s' with
           | l :: ls => String c l :: ls
           | nil => String c EmptyString :: nil
           end
  end.

(** The text up to the first line feed, and what follows that line feed. *)
Fixpoint first_line (s : string) : string :=
  match s with
  | EmptyString => EmptyString
  | String c s' => if Ascii.eqb c (chr 10) then EmptyString else String c (first_line s')
  end.

Fixpoint after_first_line (s : string) : string :=
  match s with
  | EmptyString => EmptyString
  | String c s' => if Ascii.eqb c (chr 10) then s' else after_first_line s'
  end.

Fixpoint all_chars (p : ascii -> bool) (s : string) : bool :=
  match s with
  | EmptyString => true
  | String c s' => p c && all_chars p s'
  end.

(** [c * k]: a character repeated. *)
Fixpoint repeat_char (c : ascii) (k : nat) : string :=
  match k with
  | O => EmptyString
  | S k' => String c (repeat_char c k')
  end.

End PyStr.

(** ** Regular expressions, as far as the script uses them *)

Module Re.

Inductive regex : Type :=
| Void
| Eps
| Class (p : ascii -> bool)
| Cat (r1 r2 : regex)
| Alt (r1 r2 : regex)
| Star (r : regex).

Fixpoint nullable (r : regex) : bool :=
  match r with
  | Void => false
  | Eps => true
  | Class _ => false
  | Cat r1 r2 => nullable r1 && nullable r2
  | Alt r1 r2 => nullable r1 || nullable r2
  | Star _ => true
  end.

(** The derivative of [r] by the character [c]. *)
Fixpoint deriv (c : ascii) (r : regex) : regex :=
  match r with
  | Void => Void
  | Eps => Void
  | Class p => if p c then Eps else Void
  | Cat r1 r2 =>
      if nullable r1
      then Alt (Cat (deriv c r1) r2) (deriv c r2)
      else Cat (deriv c r1) r2
  | Alt r1 r2 => Alt (deriv c r1) (deriv c r2)
  | Star r1 => Cat (deriv c r1) (Star r1)
  end.

(** [re.fullmatch]: the whole of [s] is in the language of [r]. *)
Fixpoint fullmatch (r : regex) (s : string) : bool :=
  match s with
  | EmptyString => nullable r
  | String c s' => fullmatch (deriv c r) s'
  end.

(** A literal string, [r+], and a character range [lo-hi]. *)
Fixpoint lit (s : string) : regex :=
  match s with
  | EmptyString => Eps
  | String c s' => Cat (Class (Ascii.eqb c)) (lit s')
  end.

Definition plus (r : regex) : regex := Cat r (Star r).

(** [r{n}] *)
Fixpoint times (n : nat) (r : regex) : regex :=
  match n with
  | O => Eps
  | S n' => Cat r (times n' r)
  end.

Definition in_range (lo hi c : ascii) : bool :=
  (PyStr.ord lo <=? PyStr.ord c) && (PyStr.ord c <=? PyStr.ord hi).

(** [re.compile('^' r '$').match(s)]: [r] has to match from the start of
    [s] up to a position where [$] holds, which is the end of [s] or the
    place just before a line feed that ends [s]. *)
Definition match_anchored (r : regex) (s : string) : bool :=
  fullmatch r s
  || (PyStr.endswith s PyStr.LF && fullmatch r (PyStr.drop_last 1 s)).

End Re.

(** ** The working directory *)

Module Fs.

(** A directory entry: a regular file with its text, or a directory with
    its entries in the order the system lists them.  Names within one
    directory are distinct. *)
#[warnings="-register-all"]
Inductive entry : Type :=
| File (name : string) (content : string)
| Dir (name : string) (entries : list entry).

Definition name_of (e : entry) : string :=
  match e with File n _ => n | Dir n _ => n end.

Definition is_dir (e : entry) : bool :=
  match e with Dir _ _ => true | File _ _ => false end.

(** [os.listdir]: the names of all entries. *)
Definition listdir (es : list entry) : list string := map name_of es.

Definition dir_names (es : list entry) : list string :=
  map name_of (filter (fun e => is_dir e) es).

Definition file_names (es : list entry) : list string :=
  map name_of (filter (fun e => negb (is_dir e)) es).

Fixpoint lookup (n : string) (es : list entry) : option entry :=
  match es with
  | [] => None
  | e :: es' => if String.eqb (name_of e) n then Some e else lookup n es'
  end.

(** Create or truncate the regular file [n] with text [c]: an entry of
    that name is replaced where it stands, a new file comes last.
    [write_file] calls it only when [n] names no directory. *)
Fixpoint put (n c : string) (es : list entry) : list entry :=
  match es with
  | [] => [File n c]
  | e :: es' => if String.eqb (name_of e) n then File n c :: es' else e :: put n c es'
  end.

(** [posixpath.join(a, b)] *)
Definition path_join (a b : string) : string :=
  if PyStr.startswith b "/" then b
  else if String.eqb a "" || PyStr.endswith a "/" then a +:+ b
  else a +:+ "/" +:+ b.

(** [list.remove(x)]: drops the first occurrence. *)
Fixpoint list_remove (x : string) (l : list string) : list string :=
  match l with
  | [] => []
  | y :: l' => if String.eqb y x then l' else y :: list_remove x l'
  end.

(** One step of [os.walk]: the directory path, its sub-directories and
    its other entries. *)
Definition walk_item : Type := string * list string * list string.

(** [os.walk(top)], top-down.  After a triple is yielded the consumer may
    edit its list of sub-directories in place; [prune] is that edit, and
    only the directories still listed are entered.  As names in a
    directory are distinct, going through the entries and asking whether
    the name is still listed visits the same directories, in the same
    order, as going through the edited list. *)
Fixpoint walk_from (prune : list string -> list string) (top : string)
         (e : entry) {struct e} : list walk_item :=
  match e with
  | File _ _ => []
  | Dir _ es =>
      let dirs := dir_names es in
      (top, dirs, file_names es)
        :: flat_map
             (fun d =>
                match d with
                | Dir n _ =>
                    if bool_decide (n ∈ prune dirs)
                    then walk_from prune (path_join top n) d
                    else []
                | File _ _ => []
                end) es
  end.

Definition walk (prune : list string -> list string) (top : string)
           (es : list entry) : list walk_item :=
  walk_from prune top (Dir top es).

End Fs.

(** ** The outside world and the monad of the script *)

Inductive exn : Type :=
| FileNotFoundError
| IsADirectoryError
| PermissionError
| IndexError.

(** What a run can observe and change:
    - [cwd]: the entries of the working directory;
    - [read_denied], [write_denied]: the names the system refuses to open
      for reading or for writing (permissions, a full disk, ...);
    - [random_source], [random_used]: the raw numbers the generator will
      deliver and how many of them are consumed;
    - [clock], [clock_used]: the date, formatted as [%Y-%m-%d], that the
      i-th reading of the clock gives;
    - [stdout]: the lines printed so far. *)
Record World : Type := mkWorld {
  cwd : list Fs.entry;
  read_denied : string -> bool;
  write_denied : string -> bool;
  random_source : nat -> nat;
  random_used : nat;
  clock : nat -> string;
  clock_used : nat;
  stdout : list string
}.

Inductive result (A : Type) : Type :=
| Ok (a : A)
| Raise (e : exn).
Arguments Ok {A} a.
Arguments Raise {A} e.

Definition M (A : Type) : Type := World -> result A * World.

Definition ret {A} (a : A) : M A := fun w => (Ok a, w).

Definition bind {A B} (c : M A) (k : A -> M B) : M B :=
  fun w => match c w with
           | (Ok a, w') => k a w'
           | (Raise e, w') => (Raise e, w')
           end.

Definition raise {A} (e : exn) : M A := fun w => (Raise e, w).

(** [try: c  except: h] with the handler deciding by the exception. *)
Definition try_except {A} (c : M A) (h : exn -> M A) : M A :=
  fun w => match c w with
           | (Ok a, w') => (Ok a, w')
           | (Raise e, w') => h e w'
           end.

Notation "'let*' x ':=' c 'in' k" := (bind c (fun x => k))
  (at level 10, x name, c at level 100, k at level 200).
Notation "c '>>' k" := (bind c (fun _ => k))
  (at level 100, k at level 200, right associativity).

Definition set_cwd (es : list Fs.entry) (w : World) : World :=
  mkWorld es (read_denied w) (write_denied w) (random_source w) (random_used w)
          (clock w) (clock_used w) (stdout w).

(** [print(line)] *)
Definition print (line : string) : M unit :=
  fun w => (Ok tt,
            mkWorld (cwd w) (read_denied w) (write_denied w) (random_source w)
                    (random_used w) (clock w) (clock_used w) (stdout w ++ [line])).

(** [with open(name, 'r') as f: f.read()] *)
Definition read_file (name : string) : M string :=
  fun w => match Fs.lookup name (cwd w) with
           | None => (Raise FileNotFoundError, w)
           | Some (Fs.Dir _ _) => (Raise IsADirectoryError, w)
           | Some (Fs.File _ c) =>
               if read_denied w name then (Raise PermissionError, w) else (Ok c, w)
           end.

(** [with open(name, 'w') as f: f.write(content)] *)
Definition write_file (name content : string) : M unit :=
  fun w => match Fs.lookup name (cwd w) with
           | Some (Fs.Dir _ _) => (Raise IsADirectoryError, w)
           | _ =>
               if write_denied w name then (Raise PermissionError, w)
               else (Ok tt, set_cwd (Fs.put name content (cwd w)) w)
           end.

(** [random._randbelow(n)]: the next raw number, brought below [n]. *)
Definition randbelow (n : nat) : M nat :=
  fun w => (Ok (random_source w (random_used w) mod n),
            mkWorld (cwd w) (read_denied w) (write_denied w) (random_source w)
                    (S (random_used w)) (clock w) (clock_used w) (stdout w)).

(** [random.choice(seq)] is [seq[randbelow(len(seq))]]. *)
Definition random_choice (seq : string) : M ascii :=
  let* i := randbelow (String.length seq) in
  match String.get i seq with
  | Some c => ret c
  | None => raise IndexError
  end.

(** [datetime.datetime.now().strftime('%Y-%m-%d')] *)
Definition now_ymd : M string :=
  fun w => (Ok (clock w (clock_used w)),
            mkWorld (cwd w) (read_denied w) (write_denied w) (random_source w)
                    (random_used w) (clock w) (S (clock_used w)) (stdout w)).

Definition get_cwd : M (list Fs.entry) := fun w => (Ok (cwd w), w).

(** ** The script *)

(** The double quote of the XML attributes. *)
Definition DQ : string := String (PyStr.chr 34) EmptyString.

Definition LF : string := PyStr.LF.

(** [get_domain_from_cname]: the text of [CNAME], stripped; when the file
    is not found a warning is printed and the default is returned.  Any
    other exception passes through. *)
Definition get_domain_from_cname : M string :=
  try_except
    (let* text := read_file "CNAME" in ret (PyStr.strip text))
    (fun e =>
       match e with
       | FileNotFoundError =>
           print "Warning: CNAME file not found. Using default." >>
           ret "example.com"
       | _ => raise e
       end).

(** The edit of the loop body on the list of sub-directories:
    [if '.git' in dirs: dirs.remove('.git')]. *)
Definition skip_git (dirs : list string) : list string :=
  if bool_decide (".git" ∈ dirs) then Fs.list_remove ".git" dirs else dirs.

(** [os.path.join(root, file).replace('./', '')] *)
Definition full_path_of (root file : string) : string :=
  PyStr.replace (Fs.path_join root file) "./" "".

(** The URL path of a full path: [full_path[:-10]] when it ends in
    [index.html], the path itself otherwise. *)
Definition url_path_of (full_path : string) : string :=
  if PyStr.endswith full_path "index.html"
  then PyStr.drop_last 10 full_path
  else full_path.

(** The inner loop of [get_all_html_files] over the files of one directory. *)
Definition html_of_item (it : Fs.walk_item) : list string :=
  let '(root, _, files) := it in
  flat_map
    (fun file =>
       if PyStr.endswith file ".html"
       then [url_path_of (full_path_of root file)]
       else [])
    files.

Definition html_files_in (es : list Fs.entry) : list string :=
  flat_map html_of_item (Fs.walk skip_git "." es).

Definition get_all_html_files : M (list string) :=
  let* es := get_cwd in ret (html_files_in es).

(** [string.ascii_lowercase + string.digits] *)
Definition letters : string := "abcdefghijklmnopqrstuvwxyz" +:+ "0123456789".

(** [''.join(random.choice(letters) for i in range(length))] *)
Fixpoint random_token (length : nat) : M string :=
  match length with
  | O => ret EmptyString
  | S n =>
      let* c := random_choice letters in
      let* rest := random_token n in
      ret (String c rest)
  end.

Definition generate_random_name (length : nat) : M string :=
  let* token := random_token length in
  ret ("sm_" +:+ token +:+ ".xml").

(** The absolute URL of one path inside [create_sitemap_chunk]. *)
Definition full_url (domain url : string) : string :=
  let clean_url := PyStr.lstrip_slash url in
  "https://" +:+ domain +:+ "/" +:+ clean_url.

Definition xml_header : string :=
  "<?xml version=" +:+ DQ +:+ "1.0" +:+ DQ +:+ " encoding=" +:+ DQ +:+ "UTF-8"
  +:+ DQ +:+ "?>" +:+ LF.

Definition xmlns : string :=
  "xmlns=" +:+ DQ +:+ "http://www.sitemaps.org/schemas/sitemap/0.9" +:+ DQ.

Definition url_entry (domain today url : string) : string :=
  "  <url>" +:+ LF +:+ "    <loc>" +:+ full_url domain url +:+ "</loc>" +:+ LF
  +:+ "    <lastmod>" +:+ today +:+ "</lastmod>" +:+ LF
  +:+ "    <priority>0.8</priority>" +:+ LF +:+ "  </url>" +:+ LF.

Definition chunk_document (urls : list string) (domain today : string) : string :=
  xml_header +:+ "<urlset " +:+ xmlns +:+ ">" +:+ LF
  +:+ PyStr.join (map (url_entry domain today) urls)
  +:+ "</urlset>".

Definition create_sitemap_chunk (urls : list string) (domain filename : string)
  : M unit :=
  let* today := now_ymd in
  write_file filename (chunk_document urls domain today).

(** [re.compile(r'^sm_[a-z0-9]+\.xml$')] *)
Definition lower_or_digit (c : ascii) : bool :=
  Re.in_range "a" "z" c || Re.in_range "0" "9" c.

Definition sitemap_pattern : Re.regex :=
  Re.Cat (Re.lit "sm_") (Re.Cat (Re.plus (Re.Class lower_or_digit)) (Re.lit ".xml")).

Definition existing_sitemaps_in (es : list Fs.entry) : list string :=
  filter (fun f => Re.match_anchored sitemap_pattern f = true) (Fs.listdir es).

Definition get_existing_sitemaps : M (list string) :=
  let* es := get_cwd in ret (existing_sitemaps_in es).

(** [sorted(list(set(sitemap_files)))]: the set decides which names occur,
    the sort their order, which for [str] is [String.le], code point by
    code point. *)
Definition sorted_set (sitemap_files : list string) : list string :=
  merge_sort String.le (elements (list_to_set sitemap_files : gset string)).

Definition index_entry (domain sm : string) : string :=
  "  <sitemap>" +:+ LF +:+ "    <loc>https://" +:+ domain +:+ "/" +:+ sm
  +:+ "</loc>" +:+ LF +:+ "  </sitemap>" +:+ LF.

Definition index_document (sitemap_files : list string) (domain : string) : string :=
  xml_header +:+ "<sitemapindex " +:+ xmlns +:+ ">" +:+ LF
  +:+ PyStr.join (map (index_entry domain) (sorted_set sitemap_files))
  +:+ "</sitemapindex>".

Definition create_main_index (sitemap_files : list string) (domain : string) : M unit :=
  write_file "sitemap.xml" (index_document sitemap_files domain).

Definition robots_document (domain : string) : string :=
  ("User-agent: *" +:+ LF +:+ "Allow: /" +:+ LF)
  +:+ (LF +:+ "Sitemap: https://" +:+ domain +:+ "/sitemap.xml").

Definition create_robots_txt (domain : string) : M unit :=
  write_file "robots.txt" (robots_document domain).

(** [range(start, stop, step)] for a positive [step]. *)
Definition range (start stop step : nat) : list nat :=
  map (fun k => start + k * step) (seq 0 ((stop - start + step - 1) / step)).

(** [l[i:j]] for [0 <= i <= j]. *)
Definition slice {A} (l : list A) (i j : nat) : list A := take (j - i) (drop i l).

(** [[all_urls[i:i + n] for i in range(0, len(all_urls), n)]] *)
Definition chunks_of (n : nat) (all_urls : list string) : list (list string) :=
  map (fun i => slice all_urls i (i + n)) (range 0 (length all_urls) n).

Definition MAX_URLS : nat := 2000.

(** The loop over the chunks, [new_sitemap_filenames] being the list it
    appends to. *)
Fixpoint write_chunks (chunks : list (list string)) (domain : string)
         (new_sitemap_filenames : list string) : M (list string) :=
  match chunks with
  | [] => ret new_sitemap_filenames
  | chunk :: rest =>
      let* new_name := generate_random_name 12 in
      create_sitemap_chunk chunk domain new_name >>
      print ("Generated new chunk: " +:+ new_name) >>
      write_chunks rest domain (new_sitemap_filenames ++ [new_name])
  end.

Definition main : M unit :=
  let* domain := get_domain_from_cname in
  let* all_urls := get_all_html_files in
  let* existing_sitemaps := get_existing_sitemaps in
  let chunks := chunks_of MAX_URLS all_urls in
  let* new_sitemap_filenames := write_chunks chunks domain [] in
  let total_sitemaps := existing_sitemaps ++ new_sitemap_filenames in
  create_main_index total_sitemaps domain >>
  print ("Updated sitemap.xml with " +:+ PyStr.of_nat (length total_sitemaps)
         +:+ " total sitemap files.") >>
  create_robots_txt domain.

(** ** Notions the statements below are written in *)

(** The character [random.choice(letters)] returns on the raw number [raw]. *)
Definition letter_of (raw : nat) : ascii :=
  default "a"%char (String.get (raw mod String.length letters) letters).

(** The token made of [n] raw numbers from position [pos] on, and the
    fragment name made of twelve. *)
Fixpoint token_of (rnd : nat -> nat) (pos n : nat) : string :=
  match n with
  | O => EmptyString
  | S n' => String (letter_of (rnd pos)) (token_of rnd (S pos) n')
  end.

Definition name_at (rnd : nat -> nat) (pos : nat) : string :=
  "sm_" +:+ token_of rnd pos 12 +:+ ".xml".

(** The pattern the specification gives for a generated name,
    [sm_[a-z0-9]{12}\.xml]. *)
Definition twelve_pattern : Re.regex :=
  Re.Cat (Re.lit "sm_")
         (Re.Cat (Re.times 12 (Re.Class lower_or_digit)) (Re.lit ".xml")).

(** The names of [k] fragments generated one after the other. *)
Fixpoint new_names (rnd : nat -> nat) (pos k : nat) : list string :=
  match k with
  | O => []
  | S k' => name_at rnd pos :: new_names rnd (12 + pos) k'
  end.

(** The world after [k] raw numbers were consumed. *)
Definition use_random (k : nat) (w : World) : World :=
  mkWorld (cwd w) (read_denied w) (write_denied w) (random_source w)
          (k + random_used w) (clock w) (clock_used w) (stdout w).

(** [open(n, 'w')] succeeds: [n] is no directory and writing is not refused. *)
Definition names_dir (n : string) (es : list Fs.entry) : bool :=
  match Fs.lookup n es with
  | Some (Fs.Dir _ _) => true
  | _ => false
  end.

Definition writable (w : World) (n : string) : bool :=
  negb (names_dir n (cwd w)) && negb (write_denied w n).

(** Reading [CNAME] raises nothing but [FileNotFoundError]. *)
Definition cname_ok (w : World) : bool :=
  match fst (read_file "CNAME" w) with
  | Ok _ => true
  | Raise FileNotFoundError => true
  | Raise _ => false
  end.

(** The fragments a run from [w] creates, and every file it opens for
    writing. *)
Definition created_in (w : World) : list string :=
  new_names (random_source w) (random_used w)
            (length (chunks_of MAX_URLS (html_files_in (cwd w)))).

Definition targets (w : World) : list string :=
  created_in w ++ ["sitemap.xml"; "robots.txt"].

Definition io_ok (w : World) : bool :=
  cname_ok w && forallb (writable w) (targets w).

(** The path [os.walk('.')] reports for the directory reached from the top
    through the directories [cs]. *)
Definition root_of (cs : list string) : string := foldl Fs.path_join "." cs.

Definition no_slash (s : string) : bool :=
  PyStr.all_chars (fun c => negb (Ascii.eqb c "/"%char)) s.

Definition proper_name (s : string) : bool :=
  negb (String.eqb s "") && no_slash s.

(** What is left of the directory name [c] and the separator behind it. *)
Definition norm_component (c : string) : string :=
  if PyStr.endswith c "." then PyStr.drop_last 1 c else c +:+ "/".

(** [s] holds no line feed. *)
Definition no_lf (s : string) : bool :=
  PyStr.all_chars (fun c => negb (Ascii.eqb c (PyStr.chr 10))) s.

(** [n] names a regular file. *)
Definition is_file (n : string) (es : list Fs.entry) : bool :=
  match Fs.lookup n es with
  | Some (Fs.File _ _) => true
  | _ => false
  end.

(** Two worlds that differ at most in what was printed and in the clock. *)
Definition same_files (w w' : World) : Prop :=
  cwd w' = cwd w /\ write_denied w' = write_denied w
  /\ random_source w' = random_source w /\ random_used w' = random_used w.

(** Two worlds with the same permissions, directories and random source,
    the second having every regular file of the first. *)
Definition env_kept (w w' : World) : Prop :=
  write_denied w' = write_denied w
  /\ random_source w' = random_source w
  /\ (forall n, names_dir n (cwd w') = names_dir n (cwd w))
  /\ (forall n, is_file n (cwd w) = true -> is_file n (cwd w') = true).

(** How many chunks of [n] entries [range] asks for. *)
Definition chunk_count (n : nat) (l : list string) : nat := (length l + n - 1) / n.

(** The replacement [get_all_html_files] applies to the joined path. *)
Definition strip_dot_slash (s : string) : string := PyStr.replace s "./" "".

Definition starts_with_slash (s : string) : bool :=
  match s with
  | String d _ => Ascii.eqb d "/"%char
  | EmptyString => false
  end.

(** [./] occurs somewhere in [s]. *)
Fixpoint occurs_dot_slash (s : string) : bool :=
  match s with
  | EmptyString => false
  | String c s' => (Ascii.eqb c "."%char && starts_with_slash s') || occurs_dot_slash s'
  end.

(** All names in a tree are non-empty and hold no slash. *)
Fixpoint entry_ok (e : Fs.entry) : bool :=
  match e with
  | Fs.File n _ => proper_name n
  | Fs.Dir n es => proper_name n && forallb entry_ok es
  end.

(** The world after one turn of the loop over the chunks in which every
    call succeeds: a name was drawn, the fragment written under it and the
    line printed. *)
Definition after_chunk (chunk : list string) (domain : string) (w : World) : World :=
  mkWorld
    (Fs.put (name_at (random_source w) (random_used w))
            (chunk_document chunk domain (clock w (clock_used w)))
            (cwd w))
    (read_denied w) (write_denied w) (random_source w) (12 + random_used w)
    (clock w) (S (clock_used w))
    (stdout w
     ++ ["Generated new chunk: " +:+ name_at (random_source w) (random_used w)]).

Fixpoint after_chunks (chunks : list (list string)) (domain : string) (w : World)
  : World :=
  match chunks with
  | [] => w
  | chunk :: rest => after_chunks rest domain (after_chunk chunk domain w)
  end.

(** The line [main] prints before it writes [robots.txt]. *)
Definition summary_line (total : nat) : string :=
  "Updated sitemap.xml with " +:+ PyStr.of_nat total +:+ " total sitemap files.".

(** What [main] has still to do when the loop over the chunks is through. *)
Definition finish (domain : string) (total_sitemaps : list string) : M unit :=
  create_main_index total_sitemaps domain >>
  print (summary_line (length total_sitemaps)) >>
  create_robots_txt domain.

(** The world after [finish] when both writes succeed. *)
Definition after_finish (domain : string) (total_sitemaps : list string)
           (v : World) : World :=
  let v1 := set_cwd (Fs.put "sitemap.xml" (index_document total_sitemaps domain)
                            (cwd v)) v in
  let v2 := snd (print (summary_line (length total_sitemaps)) v1) in
  set_cwd (Fs.put "robots.txt" (robots_document domain) (cwd v2)) v2.

(** A directory named [.git]. *)
Definition is_git_dir (e : Fs.entry) : bool :=
  match e with
  | Fs.Dir n _ => String.eqb n ".git"
  | Fs.File _ _ => false
  end.

(** The tree without its directories named [.git], at every depth. *)
Fixpoint erase_git (e : Fs.entry) : Fs.entry :=
  match e with
  | Fs.File n c => Fs.File n c
  | Fs.Dir n es =>
      Fs.Dir n (flat_map (fun d => if is_git_dir d then [] else [erase_git d]) es)
  end.

(** No two sub-directories of a directory have the same name, at every
    depth. *)
Fixpoint dirs_distinct (e : Fs.entry) : bool :=
  match e with
  | Fs.File _ _ => true
  | Fs.Dir _ es => bool_decide (NoDup (Fs.dir_names es)) && forallb dirs_distinct es
  end.


(** ** Sample sites *)

(** A world in which nothing is refused, on the first of May. *)
Definition world_of (es : list Fs.entry) (rnd : nat -> nat) : World :=
  mkWorld es (fun _ => false) (fun _ => false) rnd 0 (fun _ => "2024-05-01") 0 [].

Definition site1 : list Fs.entry :=
  [ Fs.File "CNAME" ("example.org" +:+ LF);
    Fs.Dir ".git" [Fs.File "x.html" ""];
    Fs.Dir "a" [Fs.File "index.html" "<html/>"];
    Fs.File "b.html" "<html/>";
    Fs.File "sm_old1.xml" "" ].

Definition site_world : World := world_of site1 (fun i => i).


(** A site without [CNAME]. *)
Definition bare_site : list Fs.entry :=
  [ Fs.Dir "a" [Fs.File "index.html" "<html/>"]; Fs.File "b.html" "<html/>" ].

(** [site1] in a world that refuses to open [sitemap.xml] for writing. *)
Definition locked_index_world : World :=
  mkWorld site1 (fun _ => false) (fun n => String.eqb n "sitemap.xml")
          (fun i => i) 0 (fun _ => "2024-05-01") 0 [].

(** A [CNAME] of two lines. *)
Definition two_line_cname : string :=
  "example.org" +:+ LF +:+ "www.example.org" +:+ LF.

(** * Properties *)

(** ** The primitives on examples *)

Example strip_ex : PyStr.strip ("  example.org " +:+ PyStr.LF) = "example.org".
Proof. vm_compute. reflexivity. Qed.

Example replace_ex : PyStr.replace "./a./b.html" "./" "" = "ab.html".
Proof. vm_compute. reflexivity. Qed.

Example replace_ex2 : PyStr.replace "aaa" "aa" "b" = "ba".
Proof. vm_compute. reflexivity. Qed.

Example endswith_ex :
  PyStr.endswith "a/index.html" "index.html" = true
  /\ PyStr.endswith "x.html" "index.html" = false
  /\ PyStr.drop_last 10 "a/index.html" = "a/".
Proof. repeat split; vm_compute; reflexivity. Qed.

Example path_join_ex :
  Fs.path_join "." "b.html" = "./b.html" /\ Fs.path_join "./a" "index.html" = "./a/index.html".
Proof. split; reflexivity. Qed.

Example pattern_ex :
  map (Re.match_anchored sitemap_pattern)
      ["sm_abc123.xml"; "sm_.xml"; "sm_abc.xml" +:+ LF; "sm_aBc.xml";
       "xsm_a.xml"; "sm_a.xmlx"; "sitemap.xml"]
  = [true; false; true; false; false; false; false].
Proof. vm_compute. reflexivity. Qed.

Example walk_ex :
  Fs.walk skip_git "." site1
  = [(".", [".git"; "a"], ["CNAME"; "b.html"; "sm_old1.xml"]);
     ("./a", [], ["index.html"])].
Proof. vm_compute. reflexivity. Qed.

(** ** Strings *)

Lemma append_nil_r (s : string) : s +:+ "" = s.
Proof. induction s as [|c s IH]; simpl; [reflexivity | now rewrite IH]. Qed.

Lemma append_assoc (a b c : string) : (a +:+ b) +:+ c = a +:+ (b +:+ c).
Proof. induction a as [|x a IH]; simpl; [reflexivity | now rewrite IH]. Qed.

Lemma length_append (a b : string) :
  String.length (a +:+ b) = String.length a + String.length b.
Proof. induction a as [|x a IH]; simpl; [reflexivity | now rewrite IH]. Qed.

Lemma all_chars_app p (a b : string) :
  PyStr.all_chars p (a +:+ b) = PyStr.all_chars p a && PyStr.all_chars p b.
Proof.
  induction a as [|x a IH]; simpl; [reflexivity |].
  rewrite IH. now rewrite andb_assoc.
Qed.

Section Strip.
Variable p : ascii -> bool.

Lemma lstrip_by_split (s : string) :
  exists pre, s = pre +:+ PyStr.lstrip_by p s /\ PyStr.all_chars p pre = true.
Proof.
  induction s as [|c s [pre [E A]]]; simpl.
  - exists ""; auto.
  - destruct (p c) eqn:Hc.
    + exists (String c pre). simpl. rewrite Hc, A. split; [f_equal; exact E | reflexivity].
    + exists ""; auto.
Qed.

Lemma lstrip_by_head (s : string) :
  match PyStr.lstrip_by p s with
  | EmptyString => True
  | String c _ => p c = false
  end.
Proof.
  induction s as [|c s IH]; simpl; [exact I |].
  destruct (p c) eqn:Hc; [exact IH | exact Hc].
Qed.

Lemma lstrip_by_all (s : string) :
  PyStr.all_chars p s = true -> PyStr.lstrip_by p s = "".
Proof.
  induction s as [|c s IH]; simpl; [reflexivity |].
  destruct (p c); simpl; [exact IH | discriminate].
Qed.

Lemma rstrip_by_all (s : string) :
  PyStr.all_chars p s = true -> PyStr.rstrip_by p s = "".
Proof.
  induction s as [|c s IH]; simpl; [reflexivity |].
  destruct (p c); simpl; [| discriminate].
  intros H. now rewrite IH.
Qed.

Lemma rstrip_by_app_all (a ws : string) :
  PyStr.all_chars p ws = true ->
  PyStr.rstrip_by p (a +:+ ws) = PyStr.rstrip_by p a.
Proof.
  intros H. induction a as [|c a IH]; simpl.
  - now apply rstrip_by_all.
  - now rewrite IH.
Qed.

Lemma lstrip_by_app (a b : string) :
  PyStr.all_chars p a = false ->
  PyStr.lstrip_by p (a +:+ b) = PyStr.lstrip_by p a +:+ b.
Proof.
  induction a as [|c a IH]; simpl; [discriminate |].
  destruct (p c); simpl; [exact IH | reflexivity].
Qed.

End Strip.

Lemma strip_app_space (a ws : string) :
  PyStr.all_chars PyStr.isspace ws = true ->
  PyStr.strip (a +:+ ws) = PyStr.strip a.
Proof.
  intros H. unfold PyStr.strip.
  destruct (PyStr.all_chars PyStr.isspace a) eqn:Ha.
  - rewrite (lstrip_by_all _ a Ha).
    rewrite lstrip_by_all; [reflexivity |].
    now rewrite all_chars_app, Ha, H.
  - rewrite lstrip_by_app by exact Ha.
    now apply rstrip_by_app_all.
Qed.

Lemma first_line_split (s : string) :
  s = PyStr.first_line s
  \/ s = PyStr.first_line s +:+ (PyStr.LF +:+ PyStr.after_first_line s).
Proof.
  induction s as [|c s IH]; simpl; [now left |].
  destruct (Ascii.eqb c (PyStr.chr 10)) eqn:Hc.
  - apply Ascii.eqb_eq in Hc. subst c. now right.
  - destruct IH as [IH | IH]; [left | right].
    + now rewrite <- IH.
    + change (String c s = String c (PyStr.first_line s +:+ (PyStr.LF +:+ PyStr.after_first_line s))).
      now rewrite <- IH.
Qed.

Lemma all_slashes_repeat (s : string) :
  PyStr.all_chars (Ascii.eqb "/"%char) s = true ->
  s = PyStr.repeat_char "/" (String.length s).
Proof.
  induction s as [|c s IH]; [reflexivity |].
  cbn [PyStr.all_chars String.length PyStr.repeat_char].
  destruct (Ascii.eqb "/"%char c) eqn:Hc; [| discriminate].
  apply Ascii.eqb_eq in Hc. subst c. intros H. now rewrite <- IH.
Qed.

Lemma prefix_slash_false (s : string) :
  match s with
  | EmptyString => True
  | String c _ => Ascii.eqb "/"%char c = false
  end ->
  PyStr.startswith s "/" = false.
Proof.
  destruct s as [|c s]; [reflexivity |].
  intros H. unfold PyStr.startswith. cbn [String.prefix].
  destruct (ascii_dec "/"%char c) as [E | E]; [| reflexivity].
  subst c. discriminate H.
Qed.

Lemma split_lines_last (a : string) :
  no_lf a = true -> PyStr.split_lines a = [a].
Proof.
  unfold no_lf. induction a as [|c a IH]; simpl; [reflexivity |].
  destruct (Ascii.eqb c (PyStr.chr 10)); simpl; [discriminate |].
  intros H. now rewrite IH.
Qed.

Lemma split_lines_line (a b : string) :
  no_lf a = true ->
  PyStr.split_lines (a +:+ String (PyStr.chr 10) b) = a :: PyStr.split_lines b.
Proof.
  unfold no_lf. induction a as [|c a IH]; simpl; [reflexivity |].
  destruct (Ascii.eqb c (PyStr.chr 10)); simpl; [discriminate |].
  intros H. now rewrite IH.
Qed.

(** ** The absolute URL of a page *)

(** C4.  Whatever the domain and however many slashes the URL path starts
    with, the URL put into a fragment is [https://], the domain, one slash
    and the path without its leading slashes: the path is some number of
    slashes followed by the stripped path, and the stripped path starts
    with no slash. *)
Theorem full_url_single_slash (domain url : string) :
  exists k,
    url = PyStr.repeat_char "/" k +:+ PyStr.lstrip_slash url
    /\ PyStr.startswith (PyStr.lstrip_slash url) "/" = false
    /\ full_url domain url
       = "https://" +:+ domain +:+ "/" +:+ PyStr.lstrip_slash url
    /\ forall today,
        url_entry domain today url
        = "  <url>" +:+ LF +:+ "    <loc>https://" +:+ domain +:+ "/"
          +:+ PyStr.lstrip_slash url +:+ "</loc>" +:+ LF
          +:+ "    <lastmod>" +:+ today +:+ "</lastmod>" +:+ LF
          +:+ "    <priority>0.8</priority>" +:+ LF +:+ "  </url>" +:+ LF.
Proof.
  destruct (lstrip_by_split (Ascii.eqb "/"%char) url) as [pre [E A]].
  exists (String.length pre). repeat split.
  - rewrite <- (all_slashes_repeat pre A). exact E.
  - apply prefix_slash_false. apply (lstrip_by_head (Ascii.eqb "/"%char) url).
  - intros today. unfold url_entry, full_url. simpl.
    now rewrite !append_assoc.
Qed.

Example full_url_ex : full_url "example.org" "///a/b.html" = "https://example.org/a/b.html".
Proof. reflexivity. Qed.

(** ** The domain *)

Lemma get_domain_found (w : World) (n c : string) :
  Fs.lookup "CNAME" (cwd w) = Some (Fs.File n c) ->
  read_denied w "CNAME" = false ->
  get_domain_from_cname w = (Ok (PyStr.strip c), w).
Proof.
  intros Hl Hr. unfold get_domain_from_cname, try_except, bind, read_file, ret.
  now rewrite Hl, Hr.
Qed.

Lemma strip_single_line (c : string) :
  PyStr.all_chars PyStr.isspace (PyStr.after_first_line c) = true ->
  PyStr.strip c = PyStr.strip (PyStr.first_line c).
Proof.
  intros H. destruct (first_line_split c) as [E | E].
  - now rewrite <- E.
  - rewrite E at 1. apply strip_app_space.
    rewrite all_chars_app, H. reflexivity.
Qed.

(** C6, as stated, fails: with two lines in [CNAME] the domain is not the
    first line. *)
Lemma domain_not_first_line :
  fst (get_domain_from_cname
         (world_of [Fs.File "CNAME" two_line_cname] (fun i => i)))
  <> Ok (PyStr.strip (PyStr.first_line two_line_cname)).
Proof. vm_compute. discriminate. Qed.

(** C6, amended.  When [CNAME] can be read, the domain is its whole text
    stripped of surrounding whitespace; that is the stripped first line
    whenever only whitespace follows the first line. *)
Theorem domain_is_stripped_text (w : World) (n c : string)
  (Hfile : Fs.lookup "CNAME" (cwd w) = Some (Fs.File n c))
  (Hread : read_denied w "CNAME" = false) :
  get_domain_from_cname w = (Ok (PyStr.strip c), w)
  /\ (PyStr.all_chars PyStr.isspace (PyStr.after_first_line c) = true ->
      PyStr.strip c = PyStr.strip (PyStr.first_line c)).
Proof.
  split; [now apply (get_domain_found w n c) | apply strip_single_line].
Qed.

Lemma domain_is_stripped_text_witness :
  get_domain_from_cname
    (world_of [Fs.File "CNAME" ("  example.org" +:+ LF)] (fun i => i))
  = (Ok "example.org",
     world_of [Fs.File "CNAME" ("  example.org" +:+ LF)] (fun i => i)).
Proof.
  exact (proj1 (domain_is_stripped_text
                  (world_of [Fs.File "CNAME" ("  example.org" +:+ LF)] (fun i => i))
                  "CNAME" ("  example.org" +:+ LF) eq_refl eq_refl)).
Defined.

(** ** robots.txt *)

(** C8, as stated, fails: the text has more than two lines. *)
Lemma robots_not_two_lines :
  length (PyStr.split_lines (robots_document "example.org")) <> 2.
Proof. vm_compute. discriminate. Qed.

(** C8, amended.  For a domain without a line feed the text written to
    [robots.txt] has exactly four lines and no line feed at its end: the
    user-agent line for all crawlers, [Allow: /], an empty line, and the
    [Sitemap:] line with the absolute URL of [sitemap.xml]. *)
Theorem robots_four_lines (domain : string) (Hdom : no_lf domain = true) :
  create_robots_txt domain
  = write_file "robots.txt"
      ("User-agent: *" +:+ LF +:+ "Allow: /" +:+ LF +:+ LF
       +:+ "Sitemap: https://" +:+ domain +:+ "/sitemap.xml")
  /\ PyStr.split_lines (robots_document domain)
     = ["User-agent: *"; "Allow: /"; "";
        "Sitemap: https://" +:+ domain +:+ "/sitemap.xml"].
Proof.
  split; [reflexivity |].
  unfold robots_document.
  change (PyStr.split_lines
            ("User-agent: *" +:+ String (PyStr.chr 10)
               ("Allow: /" +:+ String (PyStr.chr 10)
                  ("" +:+ String (PyStr.chr 10)
                     ("Sitemap: https://" +:+ domain +:+ "/sitemap.xml"))))
          = ["User-agent: *"; "Allow: /"; "";
             "Sitemap: https://" +:+ domain +:+ "/sitemap.xml"]).
  rewrite !split_lines_line by reflexivity.
  rewrite split_lines_last; [reflexivity |].
  unfold no_lf in *. rewrite !all_chars_app, Hdom. reflexivity.
Qed.

Lemma robots_four_lines_witness :
  PyStr.split_lines (robots_document "example.org")
  = ["User-agent: *"; "Allow: /"; ""; "Sitemap: https://example.org/sitemap.xml"].
Proof. exact (proj2 (robots_four_lines "example.org" eq_refl)). Defined.

(** ** Fragment names *)

Lemma letters_checked :
  forallb
    (fun i => match String.get i letters with
              | Some c => lower_or_digit c
              | None => false
              end)
    (seq 0 (String.length letters)) = true.
Proof. vm_compute. reflexivity. Qed.

Lemma letters_get (raw : nat) :
  exists c, String.get (raw mod String.length letters) letters = Some c
            /\ lower_or_digit c = true.
Proof.
  pose proof letters_checked as H.
  rewrite forallb_forall in H.
  assert (raw mod String.length letters < String.length letters) as Hlt.
  { apply Nat.mod_upper_bound. intros E. vm_compute in E. discriminate E. }
  specialize (H (raw mod String.length letters)).
  assert (In (raw mod String.length letters) (seq 0 (String.length letters))) as Hin.
  { apply in_seq. lia. }
  specialize (H Hin).
  destruct (String.get (raw mod String.length letters) letters) as [c|].
  - exists c. split; [reflexivity | exact H].
  - discriminate H.
Qed.

Lemma letter_of_class (raw : nat) : lower_or_digit (letter_of raw) = true.
Proof.
  unfold letter_of. destruct (letters_get raw) as [c [E Hc]].
  now rewrite E.
Qed.

Lemma use_random_0 (w : World) : use_random 0 w = w.
Proof. now destruct w. Qed.

Lemma use_random_add (a b : nat) (w : World) :
  use_random a (use_random b w) = use_random (a + b) w.
Proof. unfold use_random. simpl. now rewrite Nat.add_assoc. Qed.

Lemma random_choice_letters (w : World) :
  random_choice letters w
  = (Ok (letter_of (random_source w (random_used w))), use_random 1 w).
Proof.
  unfold random_choice, bind, randbelow, letter_of.
  destruct (letters_get (random_source w (random_used w))) as [c [E _]].
  now rewrite E.
Qed.

Lemma random_token_run (n : nat) :
  forall w, random_token n w
            = (Ok (token_of (random_source w) (random_used w) n), use_random n w).
Proof.
  induction n as [|n IH]; intros w.
  - simpl. unfold ret. now rewrite use_random_0.
  - cbn [random_token token_of]. unfold bind at 1.
    rewrite random_choice_letters. unfold bind at 1.
    rewrite IH. unfold ret. rewrite use_random_add.
    replace (n + 1) with (S n) by lia. reflexivity.
Qed.

Lemma generate_random_name_run (w : World) :
  generate_random_name 12 w
  = (Ok (name_at (random_source w) (random_used w)), use_random 12 w).
Proof.
  unfold generate_random_name, bind. now rewrite random_token_run.
Qed.

Lemma token_of_length rnd (n : nat) :
  forall pos, String.length (token_of rnd pos n) = n.
Proof. induction n as [|n IH]; intros pos; simpl; [reflexivity | now rewrite IH]. Qed.

Lemma token_of_class rnd (n : nat) :
  forall pos, PyStr.all_chars lower_or_digit (token_of rnd pos n) = true.
Proof.
  induction n as [|n IH]; intros pos; [reflexivity |].
  cbn [token_of PyStr.all_chars]. now rewrite letter_of_class, IH.
Qed.

(** *** Matching by derivatives *)

Lemma fullmatch_Void (s : string) : Re.fullmatch Re.Void s = false.
Proof. induction s as [|c s IH]; [reflexivity | exact IH]. Qed.

Lemma fullmatch_Alt (s : string) :
  forall a b, Re.fullmatch (Re.Alt a b) s = Re.fullmatch a s || Re.fullmatch b s.
Proof.
  induction s as [|c s IH]; intros a b; [reflexivity |].
  cbn [Re.fullmatch Re.deriv]. apply IH.
Qed.

Lemma fullmatch_Cat_nullable (a b : Re.regex) (s : string) :
  Re.nullable a = true -> Re.fullmatch b s = true ->
  Re.fullmatch (Re.Cat a b) s = true.
Proof.
  intros Ha Hb. destruct s as [|c s].
  - cbn in *. now rewrite Ha, Hb.
  - cbn [Re.fullmatch Re.deriv] in *. rewrite Ha, fullmatch_Alt, Hb.
    apply orb_true_r.
Qed.

Lemma fullmatch_Cat (b : Re.regex) (s1 s2 : string) :
  forall a, Re.fullmatch a s1 = true -> Re.fullmatch b s2 = true ->
            Re.fullmatch (Re.Cat a b) (s1 +:+ s2) = true.
Proof.
  induction s1 as [|c s1 IH]; intros a Ha Hb.
  - now apply fullmatch_Cat_nullable.
  - cbn [String.append Re.fullmatch Re.deriv] in *.
    destruct (Re.nullable a).
    + rewrite fullmatch_Alt, (IH _ Ha Hb). reflexivity.
    + exact (IH _ Ha Hb).
Qed.

Lemma fullmatch_Class (p : ascii -> bool) (c : ascii) :
  Re.fullmatch (Re.Class p) (String c "") = p c.
Proof. cbn. now destruct (p c). Qed.

Lemma fullmatch_lit (s : string) : Re.fullmatch (Re.lit s) s = true.
Proof.
  induction s as [|c s IH]; [reflexivity |].
  change (String c s) with (String c "" +:+ s) at 2.
  cbn [Re.lit]. apply fullmatch_Cat; [| exact IH].
  rewrite fullmatch_Class. apply Ascii.eqb_refl.
Qed.

Lemma fullmatch_Star_class (p : ascii -> bool) (s : string) :
  PyStr.all_chars p s = true -> Re.fullmatch (Re.Star (Re.Class p)) s = true.
Proof.
  induction s as [|c s IH]; [reflexivity |].
  cbn [PyStr.all_chars Re.fullmatch Re.deriv]. intros H.
  apply andb_true_iff in H. destruct H as [Hc Hs]. rewrite Hc.
  apply fullmatch_Cat_nullable; [reflexivity | now apply IH].
Qed.

Lemma fullmatch_plus_class (p : ascii -> bool) (s : string) :
  s <> "" -> PyStr.all_chars p s = true ->
  Re.fullmatch (Re.plus (Re.Class p)) s = true.
Proof.
  destruct s as [|c s]; [congruence |]. intros _ H.
  cbn [PyStr.all_chars] in H. apply andb_true_iff in H. destruct H as [Hc Hs].
  change (String c s) with (String c "" +:+ s). unfold Re.plus.
  apply fullmatch_Cat; [now rewrite fullmatch_Class | now apply fullmatch_Star_class].
Qed.

Lemma fullmatch_times_class (p : ascii -> bool) (n : nat) :
  forall s, String.length s = n -> PyStr.all_chars p s = true ->
            Re.fullmatch (Re.times n (Re.Class p)) s = true.
Proof.
  induction n as [|n IH]; intros [|c s] Hl H; try discriminate Hl.
  - reflexivity.
  - cbn [PyStr.all_chars] in H. apply andb_true_iff in H. destruct H as [Hc Hs].
    change (String c s) with (String c "" +:+ s). cbn [Re.times].
    apply fullmatch_Cat; [now rewrite fullmatch_Class |].
    apply IH; [now injection Hl | exact Hs].
Qed.

(** A name with a non-empty token of lower-case letters and digits is one
    the scanner of existing fragments accepts. *)
Lemma scanner_accepts (token : string) :
  token <> "" -> PyStr.all_chars lower_or_digit token = true ->
  Re.match_anchored sitemap_pattern ("sm_" +:+ token +:+ ".xml") = true.
Proof.
  intros Hn Hc. unfold Re.match_anchored, sitemap_pattern.
  rewrite fullmatch_Cat; [reflexivity | apply fullmatch_lit |].
  apply fullmatch_Cat; [now apply fullmatch_plus_class | apply fullmatch_lit].
Qed.

(** C7.  Whatever the random source delivers, [generate_random_name] with
    the default length returns [sm_], then a token of exactly twelve
    characters, each a lower-case letter or a digit, then [.xml]: a name
    in the language of [sm_[a-z0-9]{12}\.xml], and one the scanner of
    existing fragments accepts.  The call consumes twelve random numbers
    and never raises. *)
Theorem fragment_name_shape (w : World) :
  exists token,
    generate_random_name 12 w = (Ok ("sm_" +:+ token +:+ ".xml"), use_random 12 w)
    /\ String.length token = 12
    /\ PyStr.all_chars lower_or_digit token = true
    /\ Re.fullmatch twelve_pattern ("sm_" +:+ token +:+ ".xml") = true
    /\ Re.match_anchored sitemap_pattern ("sm_" +:+ token +:+ ".xml") = true.
Proof.
  exists (token_of (random_source w) (random_used w) 12).
  pose proof (token_of_length (random_source w) 12 (random_used w)) as Hl.
  pose proof (token_of_class (random_source w) 12 (random_used w)) as Hc.
  split; [apply generate_random_name_run |].
  split; [exact Hl |]. split; [exact Hc |]. split.
  - unfold twelve_pattern.
    apply fullmatch_Cat; [apply fullmatch_lit |].
    apply fullmatch_Cat; [now apply fullmatch_times_class | apply fullmatch_lit].
  - apply scanner_accepts; [| exact Hc].
    intros E. rewrite E in Hl. discriminate Hl.
Qed.

Example fragment_name_ex :
  fst (generate_random_name 12 (world_of [] (fun i => 7 * i)))
  = Ok "sm_ahov29gnu18f.xml".
Proof. vm_compute. reflexivity. Qed.

(** ** Chunks *)

Section Chunks.

Variable n : nat.
Hypothesis n_pos : 0 < n.

Implicit Type l : list string.

Lemma chunks_of_count l :
  chunks_of n l = map (fun k => take n (drop (k * n) l)) (seq 0 (chunk_count n l)).
Proof.
  clear n_pos.
  unfold chunks_of, range, slice, chunk_count. rewrite map_map.
  rewrite Nat.sub_0_r. apply map_ext. intros k.
  replace (0 + k * n + n - (0 + k * n)) with n by lia.
  reflexivity.
Qed.

Lemma concat_chunks_prefix l (m : nat) :
  concat (map (fun k => take n (drop (k * n) l)) (seq 0 m)) = take (m * n) l.
Proof.
  induction m as [|m IH]; [reflexivity |].
  rewrite seq_S, map_app, concat_app, IH. simpl.
  rewrite app_nil_r, take_take_drop.
  f_equal. lia.
Qed.

Lemma chunk_count_covers l : length l <= chunk_count n l * n.
Proof.
  unfold chunk_count.
  pose proof (Nat.div_mod_eq (length l + n - 1) n) as E.
  pose proof (Nat.mod_upper_bound (length l + n - 1) n) as B.
  nia.
Qed.

Lemma chunk_count_tight l (k : nat) : S k < chunk_count n l -> S k * n < length l.
Proof.
  unfold chunk_count.
  pose proof (Nat.div_mod_eq (length l + n - 1) n) as E.
  intros H. nia.
Qed.

Lemma chunks_of_concat l : concat (chunks_of n l) = l.
Proof.
  rewrite chunks_of_count, concat_chunks_prefix.
  apply take_ge, chunk_count_covers.
Qed.

Lemma chunks_of_length l : length (chunks_of n l) = chunk_count n l.
Proof. rewrite chunks_of_count. now rewrite length_map, length_seq. Qed.

Lemma chunks_of_lookup l (i : nat) (c : list string) :
  chunks_of n l !! i = Some c ->
  i < chunk_count n l /\ c = take n (drop (i * n) l).
Proof.
  rewrite chunks_of_count. intros H.
  change (((fun k => take n (drop (k * n) l)) <$> seq 0 (chunk_count n l)) !! i
          = Some c) in H.
  rewrite list_lookup_fmap in H.
  destruct (seq 0 (chunk_count n l) !! i) as [k|] eqn:Hk; [| discriminate].
  apply lookup_seq in Hk. destruct Hk as [-> Hi].
  simpl in H. injection H as <-. split; [exact Hi | reflexivity].
Qed.

Lemma chunks_of_full l (i : nat) (c : list string) :
  chunks_of n l !! i = Some c -> S i < length (chunks_of n l) -> length c = n.
Proof.
  intros H Hi. rewrite chunks_of_length in Hi.
  destruct (chunks_of_lookup l i c H) as [_ ->].
  pose proof (chunk_count_tight l i Hi) as T.
  rewrite length_take, length_drop. lia.
Qed.

Lemma chunks_of_bounded l : Forall (fun c => length c <= n) (chunks_of n l).
Proof.
  clear n_pos.
  rewrite chunks_of_count. apply List.Forall_forall. intros c Hc.
  apply in_map_iff in Hc. destruct Hc as [k [<- _]].
  rewrite length_take. lia.
Qed.

End Chunks.

Lemma MAX_URLS_pos : 0 < MAX_URLS.
Proof. apply Nat.ltb_lt. vm_compute. reflexivity. Qed.

(** C2.  With chunks of [MAX_URLS] = 2000 entries: the chunks put one
    after the other give back the list of URLs; every chunk that has a
    successor holds exactly 2000 entries; no chunk holds more. *)
Theorem chunks_partition (all_urls : list string) :
  MAX_URLS = 2000
  /\ concat (chunks_of MAX_URLS all_urls) = all_urls
  /\ (forall (i : nat) (c : list string),
        chunks_of MAX_URLS all_urls !! i = Some c ->
        S i < length (chunks_of MAX_URLS all_urls) ->
        length c = MAX_URLS)
  /\ Forall (fun c => length c <= MAX_URLS) (chunks_of MAX_URLS all_urls).
Proof.
  split; [reflexivity |].
  split; [exact (chunks_of_concat MAX_URLS MAX_URLS_pos all_urls) |].
  split; [exact (chunks_of_full MAX_URLS MAX_URLS_pos all_urls) |].
  exact (chunks_of_bounded MAX_URLS all_urls).
Qed.

Example chunks_ex :
  chunks_of 2 ["a"; "b"; "c"; "d"; "e"] = [["a"; "b"]; ["c"; "d"]; ["e"]].
Proof. reflexivity. Qed.

(** ** The working directory under writes *)

Lemma lookup_put_eq (n c : string) (es : list Fs.entry) :
  Fs.lookup n (Fs.put n c es) = Some (Fs.File n c).
Proof.
  induction es as [|e es IH]; cbn [Fs.put Fs.lookup].
  - cbn [Fs.name_of]. now rewrite String.eqb_refl.
  - destruct (String.eqb (Fs.name_of e) n) eqn:E; cbn [Fs.lookup].
    + cbn [Fs.name_of]. now rewrite String.eqb_refl.
    + now rewrite E.
Qed.

Lemma lookup_put_ne (n m c : string) (es : list Fs.entry) :
  n <> m -> Fs.lookup m (Fs.put n c es) = Fs.lookup m es.
Proof.
  intros Hne. apply String.eqb_neq in Hne.
  induction es as [|e es IH]; cbn [Fs.put Fs.lookup].
  - cbn [Fs.name_of]. now rewrite Hne.
  - destruct (String.eqb (Fs.name_of e) n) eqn:E; cbn [Fs.lookup].
    + apply String.eqb_eq in E. cbn [Fs.name_of]. now rewrite E, Hne.
    + now rewrite IH.
Qed.

Lemma names_dir_put (n c : string) (es : list Fs.entry) :
  names_dir n es = false ->
  forall m, names_dir m (Fs.put n c es) = names_dir m es.
Proof.
  intros Hn m. unfold names_dir in *.
  destruct (String.eqb n m) eqn:E.
  - apply String.eqb_eq in E. subst m. rewrite lookup_put_eq.
    destruct (Fs.lookup n es) as [[|]|]; [reflexivity | discriminate | reflexivity].
  - apply String.eqb_neq in E. now rewrite lookup_put_ne.
Qed.

Lemma is_file_put (n c : string) (es : list Fs.entry) :
  is_file n (Fs.put n c es) = true.
Proof. unfold is_file. now rewrite lookup_put_eq. Qed.

Lemma is_file_put_mono (n m c : string) (es : list Fs.entry) :
  is_file m es = true -> is_file m (Fs.put n c es) = true.
Proof.
  intros H. destruct (String.eqb n m) eqn:E.
  - apply String.eqb_eq in E. subst m. apply is_file_put.
  - apply String.eqb_neq in E. unfold is_file in *. now rewrite lookup_put_ne.
Qed.

Lemma same_files_refl (w : World) : same_files w w.
Proof. repeat split. Qed.

Lemma env_kept_refl (w : World) : env_kept w w.
Proof. repeat split; auto. Qed.

Lemma env_kept_trans (w1 w2 w3 : World) :
  env_kept w1 w2 -> env_kept w2 w3 -> env_kept w1 w3.
Proof.
  intros (A1 & B1 & C1 & D1) (A2 & B2 & C2 & D2). repeat split.
  - now rewrite A2.
  - now rewrite B2.
  - intros n. now rewrite C2.
  - intros n H. auto.
Qed.

Lemma same_files_env_kept (w w' : World) : same_files w w' -> env_kept w w'.
Proof.
  intros (A & B & C & _). repeat split; [exact B | exact C | now rewrite A |].
  intros n. now rewrite A.
Qed.

Lemma env_kept_writable (w w' : World) (n : string) :
  env_kept w w' -> writable w' n = writable w n.
Proof. intros (A & _ & C & _). unfold writable. now rewrite A, C. Qed.

Lemma same_files_print (line : string) (w : World) :
  print line w = (Ok tt, snd (print line w)) /\ same_files w (snd (print line w)).
Proof. split; [reflexivity | repeat split]. Qed.

Lemma write_file_ok (n c : string) (w : World) :
  writable w n = true ->
  write_file n c w = (Ok tt, set_cwd (Fs.put n c (cwd w)) w).
Proof.
  unfold writable, names_dir, write_file. intros H.
  apply andb_true_iff in H. destruct H as [Hd Hw].
  apply negb_true_iff in Hw. rewrite Hw.
  destruct (Fs.lookup n (cwd w)) as [[|]|]; [reflexivity | discriminate | reflexivity].
Qed.

Lemma write_file_fail (n c : string) (w : World) :
  writable w n = false -> exists e, write_file n c w = (Raise e, w).
Proof.
  unfold writable, names_dir, write_file. intros H.
  destruct (Fs.lookup n (cwd w)) as [[|]|]; simpl in H.
  - rewrite negb_false_iff in H. rewrite H. now exists PermissionError.
  - now exists IsADirectoryError.
  - rewrite negb_false_iff in H. rewrite H. now exists PermissionError.
Qed.

Lemma env_kept_write (n c : string) (w : World) :
  writable w n = true -> env_kept w (set_cwd (Fs.put n c (cwd w)) w).
Proof.
  intros H. repeat split.
  - intros m. cbn [set_cwd cwd].
    apply names_dir_put. unfold writable in H.
    apply andb_true_iff in H. destruct H as [Hd _].
    now apply negb_true_iff in Hd.
  - intros m. cbn [set_cwd cwd]. apply is_file_put_mono.
Qed.

(** ** The loop over the chunks *)

Lemma forallb_pointwise {A} (f g : A -> bool) (l : list A) :
  (forall x, f x = g x) -> forallb f l = forallb g l.
Proof.
  intros H. induction l as [|x l IH]; [reflexivity |].
  cbn [forallb]. now rewrite H, IH.
Qed.

Lemma create_sitemap_chunk_ok (urls : list string) (domain n : string) (w : World) :
  writable w n = true ->
  create_sitemap_chunk urls domain n w
  = (Ok tt,
     set_cwd (Fs.put n (chunk_document urls domain (clock w (clock_used w)))
                     (cwd (snd (now_ymd w))))
             (snd (now_ymd w))).
Proof.
  intros H. unfold create_sitemap_chunk, bind. cbn [now_ymd].
  rewrite write_file_ok; [reflexivity | exact H].
Qed.

Lemma create_sitemap_chunk_fail (urls : list string) (domain n : string) (w : World) :
  writable w n = false ->
  exists e w', create_sitemap_chunk urls domain n w = (Raise e, w').
Proof.
  intros H. unfold create_sitemap_chunk, bind. cbn [now_ymd].
  match goal with
  | |- context [write_file n ?c ?w0] =>
      destruct (write_file_fail n c w0 H) as [e E]; rewrite E
  end.
  eauto.
Qed.

Lemma write_chunks_run (chunks : list (list string)) (domain : string) :
  forall (acc : list string) (w : World),
    match write_chunks chunks domain acc w with
    | (Ok l, w') =>
        forallb (writable w)
                (new_names (random_source w) (random_used w) (length chunks)) = true
        /\ l = acc ++ new_names (random_source w) (random_used w) (length chunks)
        /\ env_kept w w'
        /\ Forall (fun n => is_file n (cwd w') = true)
                  (new_names (random_source w) (random_used w) (length chunks))
    | (Raise _, _) =>
        forallb (writable w)
                (new_names (random_source w) (random_used w) (length chunks)) = false
    end.
Proof.
  induction chunks as [|chunk rest IH]; intros acc w.
  - cbn. rewrite app_nil_r.
    refine (conj _ (conj _ (conj _ _))); auto using env_kept_refl.
  - cbn [write_chunks length new_names forallb]. unfold bind at 1.
    rewrite generate_random_name_run.
    set (name := name_at (random_source w) (random_used w)).
    unfold bind at 1.
    destruct (writable w name) eqn:Hw.
    + rewrite create_sitemap_chunk_ok by exact Hw.
      unfold bind at 1. cbn [print].
      match goal with
      | |- context [write_chunks rest domain _ ?w2] =>
          set (w2' := w2);
          assert (env_kept w w2') as K
      end.
      { subst w2'. repeat split.
        - intros m. cbn. apply names_dir_put. unfold writable in Hw.
          apply andb_true_iff in Hw. destruct Hw as [Hd _].
          now apply negb_true_iff in Hd.
        - intros m. cbn. apply is_file_put_mono. }
      assert (is_file name (cwd w2') = true) as Hf.
      { subst w2'. cbn. apply is_file_put. }
      specialize (IH (acc ++ [name]) w2').
      assert (random_source w2' = random_source w) as Es by reflexivity.
      assert (random_used w2' = 12 + random_used w) as Eu by reflexivity.
      rewrite Es, Eu in IH.
      destruct (write_chunks rest domain (acc ++ [name]) w2') as [[l | e] w'].
      * destruct IH as (A & B & C & D). refine (conj _ (conj _ (conj _ _))).
        -- cbn [andb]. rewrite <- A. apply forallb_pointwise. intros m.
           symmetry. now apply env_kept_writable.
        -- rewrite B. now rewrite <- app_assoc.
        -- apply (env_kept_trans _ _ _ K C).
        -- constructor; [| exact D].
           destruct C as (_ & _ & _ & C). now apply C.
      * cbn [andb]. rewrite <- IH. apply forallb_pointwise. intros m.
        symmetry. now apply env_kept_writable.
    + destruct (create_sitemap_chunk_fail chunk domain name (use_random 12 w))
        as (e & w' & E).
      { exact Hw. }
      rewrite E. reflexivity.
Qed.

(** ** A run of [main] *)

Lemma get_domain_run (w : World) :
  match get_domain_from_cname w with
  | (Ok _, w1) => cname_ok w = true /\ same_files w w1
  | (Raise e, w1) =>
      cname_ok w = false /\ w1 = w /\ fst (read_file "CNAME" w) = Raise e
  end.
Proof.
  unfold get_domain_from_cname, try_except, bind, cname_ok, read_file.
  destruct (Fs.lookup "CNAME" (cwd w)) as [[n c | n es] |].
  - destruct (read_denied w "CNAME"); cbn.
    + repeat split.
    + split; [reflexivity | apply same_files_refl].
  - cbn. repeat split.
  - cbn. split; [reflexivity | repeat split].
Qed.

Lemma get_domain_absent (w : World) :
  Fs.lookup "CNAME" (cwd w) = None ->
  get_domain_from_cname w
  = (Ok "example.com",
     snd (print "Warning: CNAME file not found. Using default." w)).
Proof.
  intros H. unfold get_domain_from_cname, try_except, bind, read_file.
  now rewrite H.
Qed.

Lemma io_ok_split (w : World) :
  io_ok w
  = cname_ok w
    && (forallb (writable w) (created_in w)
        && (writable w "sitemap.xml" && writable w "robots.txt")).
Proof.
  unfold io_ok, targets. rewrite forallb_app. cbn [forallb].
  now rewrite andb_true_r.
Qed.

Lemma main_run (w : World) :
  match main w with
  | (Ok _, w') =>
      io_ok w = true
      /\ exists domain w1 w2,
          get_domain_from_cname w = (Ok domain, w1)
          /\ write_chunks (chunks_of MAX_URLS (html_files_in (cwd w))) domain [] w1
             = (Ok (created_in w), w2)
          /\ env_kept w w2
          /\ Forall (fun n => is_file n (cwd w2) = true) (created_in w)
          /\ cwd w'
             = Fs.put "robots.txt" (robots_document domain)
                 (Fs.put "sitemap.xml"
                    (index_document (existing_sitemaps_in (cwd w) ++ created_in w)
                                    domain)
                    (cwd w2))
  | (Raise _, _) => io_ok w = false
  end.
Proof.
  rewrite io_ok_split. unfold main. unfold bind at 1.
  pose proof (get_domain_run w) as G.
  destruct (get_domain_from_cname w) as [[domain | e] w1].
  2:{ destruct G as [-> _]. reflexivity. }
  destruct G as [Hc S]. rewrite Hc. cbn [andb].
  pose proof (same_files_env_kept _ _ S) as K1.
  destruct S as (Scwd & _ & Srs & Sru).
  unfold bind at 1. unfold get_all_html_files at 1, get_cwd, bind at 1, ret at 1.
  unfold bind at 1. unfold get_existing_sitemaps at 1, get_cwd, bind at 1, ret at 1.
  rewrite Scwd. unfold bind at 1.
  pose proof (write_chunks_run (chunks_of MAX_URLS (html_files_in (cwd w)))
                               domain [] w1) as R.
  rewrite Srs, Sru in R. fold (created_in w) in R.
  rewrite (forallb_pointwise (writable w1) (writable w)) in R
    by (intros m; now apply env_kept_writable).
  destruct (write_chunks (chunks_of MAX_URLS (html_files_in (cwd w))) domain [] w1)
    as [[l | e] w2] eqn:W.
  2:{ now rewrite R. }
  destruct R as (A & B & C & D). cbn [app] in B. subst l.
  pose proof (env_kept_trans _ _ _ K1 C) as K2.
  rewrite A. cbn [andb].
  unfold bind at 1. unfold create_main_index.
  destruct (writable w "sitemap.xml") eqn:Hs.
  2:{ destruct (write_file_fail "sitemap.xml"
                  (index_document (existing_sitemaps_in (cwd w) ++ created_in w) domain)
                  w2) as [e E].
      { now rewrite (env_kept_writable w w2). }
      rewrite E. reflexivity. }
  rewrite write_file_ok by (now rewrite (env_kept_writable w w2)).
  unfold bind at 1. cbn [print]. unfold create_robots_txt.
  match goal with
  | |- context [write_file "robots.txt" _ ?w3] =>
      set (w3' := w3);
      assert (writable w3' "robots.txt" = writable w "robots.txt") as Hr
  end.
  { transitivity (writable w2 "robots.txt"); [| now apply env_kept_writable].
    apply (env_kept_writable w2 w3').
    apply (env_kept_write "sitemap.xml" _ w2).
    now rewrite (env_kept_writable w w2). }
  destruct (writable w "robots.txt") eqn:Hrw.
  2:{ destruct (write_file_fail "robots.txt" (robots_document domain) w3' Hr)
        as [e E]. rewrite E. reflexivity. }
  rewrite write_file_ok by exact Hr.
  cbn [andb]. split; [reflexivity |].
  exists domain, w1, w2.
  refine (conj _ (conj _ (conj _ (conj _ _))));
    [reflexivity | exact W | exact K2 | exact D | reflexivity].
Qed.

(** ** The index *)


Lemma sorted_set_perm (l : list string) :
  sorted_set l ≡ₚ elements (list_to_set l : gset string).
Proof. unfold sorted_set. apply merge_sort_Permutation. Qed.


Lemma sorted_set_elem (l : list string) (f : string) : f ∈ sorted_set l <-> f ∈ l.
Proof.
  rewrite sorted_set_perm, elem_of_elements. apply elem_of_list_to_set.
Qed.

Example sorted_set_ex :
  sorted_set ["sm_b.xml"; "sm_a.xml"; "sm_c.xml"; "sm_a.xml"; "sm_B.xml"]
  = ["sm_B.xml"; "sm_a.xml"; "sm_b.xml"; "sm_c.xml"].
Proof. vm_compute. reflexivity. Qed.

Lemma main_ok (w : World) :
  io_ok w = true ->
  exists w' domain w1 w2,
    main w = (Ok tt, w')
    /\ get_domain_from_cname w = (Ok domain, w1)
    /\ write_chunks (chunks_of MAX_URLS (html_files_in (cwd w))) domain [] w1
       = (Ok (created_in w), w2)
    /\ env_kept w w2
    /\ Forall (fun n => is_file n (cwd w2) = true) (created_in w)
    /\ cwd w'
       = Fs.put "robots.txt" (robots_document domain)
           (Fs.put "sitemap.xml"
              (index_document (existing_sitemaps_in (cwd w) ++ created_in w) domain)
              (cwd w2)).
Proof.
  intros Hio. pose proof (main_run w) as R.
  destruct (main w) as [[[] | e] w'].
  - destruct R as (_ & domain & w1 & w2 & R).
    exists w', domain, w1, w2. split; [reflexivity | exact R].
  - rewrite Hio in R. discriminate R.
Qed.

Lemma main_fails (w : World) :
  io_ok w = false -> exists e w', main w = (Raise e, w').
Proof.
  intros Hio. pose proof (main_run w) as R.
  destruct (main w) as [[[] | e] w'].
  - destruct R as [R _]. rewrite Hio in R. discriminate R.
  - eauto.
Qed.



Example site_world_index :
  Fs.lookup "sitemap.xml" (cwd (snd (main site_world)))
  = Some (Fs.File "sitemap.xml"
            (index_document ["sm_old1.xml"; "sm_abcdefghijkl.xml"] "example.org"))
  /\ sorted_set ["sm_old1.xml"; "sm_abcdefghijkl.xml"]
     = ["sm_abcdefghijkl.xml"; "sm_old1.xml"].
Proof. split; vm_compute; reflexivity. Qed.

(** ** A site without pages *)

Lemma chunks_of_nil : chunks_of MAX_URLS [] = [].
Proof. vm_compute. reflexivity. Qed.



(** ** The missing CNAME *)

Lemma other_read_error_passes (v : World) (e : exn) :
  fst (read_file "CNAME" v) = Raise e ->
  e <> FileNotFoundError ->
  get_domain_from_cname v = (Raise e, v) /\ main v = (Raise e, v).
Proof.
  intros Hr Hne.
  assert (get_domain_from_cname v = (Raise e, v)) as G.
  { unfold get_domain_from_cname, try_except, bind.
    unfold read_file in *.
    destruct (Fs.lookup "CNAME" (cwd v)) as [[n c | n es] |]; cbn in *.
    - destruct (read_denied v "CNAME"); cbn in *; [| discriminate Hr].
      injection Hr as <-. reflexivity.
    - injection Hr as <-. reflexivity.
    - injection Hr as <-. now contradiction Hne. }
  split; [exact G |]. unfold main, bind at 1. now rewrite G.
Qed.

(** C5.  When [CNAME] is absent the resolver prints the warning and
    returns [example.com]; the run then completes exactly when every file
    it opens for writing can be written.  Nothing else is recovered from:
    any other exception raised on reading [CNAME] leaves [main] as it is,
    and a run in which a write is refused ends in an exception. *)
Theorem cname_absent_fallback (w : World)
  (Habsent : Fs.lookup "CNAME" (cwd w) = None) :
  get_domain_from_cname w
  = (Ok "example.com",
     snd (print "Warning: CNAME file not found. Using default." w))
  /\ stdout (snd (get_domain_from_cname w))
     = stdout w ++ ["Warning: CNAME file not found. Using default."]
  /\ (forallb (writable w) (targets w) = true ->
      exists w', main w = (Ok tt, w')
                 /\ Fs.lookup "robots.txt" (cwd w')
                    = Some (Fs.File "robots.txt" (robots_document "example.com")))
  /\ (forall (v : World) (e : exn),
        fst (read_file "CNAME" v) = Raise e ->
        e <> FileNotFoundError ->
        main v = (Raise e, v))
  /\ (forall v : World,
        forallb (writable v) (targets v) = false ->
        exists e v', main v = (Raise e, v')).
Proof.
  pose proof (get_domain_absent w Habsent) as G.
  split; [exact G |]. split; [now rewrite G |].
  split; [| split].
  - intros Hw.
    assert (io_ok w = true) as Hio.
    { unfold io_ok, cname_ok, read_file. now rewrite Habsent, Hw. }
    destruct (main_ok w Hio) as (w' & domain & w1 & w2 & Hm & Hd & _ & _ & _ & Hc).
    exists w'. split; [exact Hm |].
    rewrite G in Hd. injection Hd as <- _.
    rewrite Hc. apply lookup_put_eq.
  - intros v e Hr Hne. now apply other_read_error_passes.
  - intros v Hw. apply main_fails. unfold io_ok. rewrite Hw. apply andb_false_r.
Qed.

Lemma cname_absent_fallback_witness :
  get_domain_from_cname (world_of bare_site (fun i => i))
  = (Ok "example.com",
     snd (print "Warning: CNAME file not found. Using default."
                (world_of bare_site (fun i => i))))
  /\ exists w', main (world_of bare_site (fun i => i)) = (Ok tt, w').
Proof.
  destruct (cname_absent_fallback (world_of bare_site (fun i => i)) eq_refl)
    as (G & _ & Hrun & _).
  split; [exact G |].
  destruct (Hrun eq_refl) as (w' & Hm & _). now exists w'.
Defined.

Example bare_site_fragment :
  Fs.lookup "sm_abcdefghijkl.xml" (cwd (snd (main (world_of bare_site (fun i => i)))))
  = Some (Fs.File "sm_abcdefghijkl.xml"
            (chunk_document ["b.html"; "a/"] "example.com" "2024-05-01")).
Proof. vm_compute. reflexivity. Qed.

(** ** Suffixes *)

Lemma substring_all (s : string) : String.substring 0 (String.length s) s = s.
Proof. induction s as [|c s IH]; cbn; [reflexivity | now rewrite IH]. Qed.

Lemma substring_skip (a b : string) (m : nat) :
  String.substring (String.length a) m (a +:+ b) = String.substring 0 m b.
Proof. induction a as [|c a IH]; cbn; [reflexivity | exact IH]. Qed.

Lemma substring_take (a b : string) :
  String.substring 0 (String.length a) (a +:+ b) = a.
Proof.
  induction a as [|c a IH]; cbn.
  - now destruct b.
  - now rewrite IH.
Qed.

Lemma endswith_app (a suf : string) : PyStr.endswith (a +:+ suf) suf = true.
Proof.
  unfold PyStr.endswith. rewrite length_append.
  replace (String.length a + String.length suf - String.length suf)
    with (String.length a) by lia.
  rewrite substring_skip, substring_all, String.eqb_refl.
  rewrite andb_true_r. apply Nat.leb_le. lia.
Qed.

Lemma drop_last_app (a suf : string) :
  PyStr.drop_last (String.length suf) (a +:+ suf) = a.
Proof.
  unfold PyStr.drop_last. rewrite length_append.
  replace (String.length a + String.length suf - String.length suf)
    with (String.length a) by lia.
  apply substring_take.
Qed.

(** ** URL paths *)

Lemma url_path_of_index (stem : string) : url_path_of (stem +:+ "index.html") = stem.
Proof.
  unfold url_path_of. rewrite endswith_app.
  apply (drop_last_app stem "index.html").
Qed.

(** C3.  The rule for [index.html] looks at the end of the whole path and
    not at the last path component: whatever stands before a final
    [index.html] is all that is kept.  So [a/index.html] gets the URL path
    [a/] and [b.html] keeps its path, but the page [myindex.html] at the
    top of the site gets the URL path [my]. *)
Theorem url_path_cuts_any_index_suffix :
  (forall stem : string, url_path_of (stem +:+ "index.html") = stem)
  /\ full_path_of "." "myindex.html" = "myindex.html"
  /\ html_files_in [Fs.File "myindex.html" "<html/>"] = ["my"]
  /\ html_files_in [Fs.Dir "a" [Fs.File "index.html" "<html/>"];
                    Fs.File "b.html" "<html/>"] = ["b.html"; "a/"].
Proof.
  split; [exact url_path_of_index |].
  repeat split; vm_compute; reflexivity.
Qed.

(** ** Scanning a path for [./] *)

Lemma prefix_dot_slash (c : ascii) (s : string) :
  String.prefix "./" (String c s)
  = Ascii.eqb c "."%char && starts_with_slash s.
Proof.
  cbn [String.prefix]. destruct (ascii_dec "."%char c) as [E | E].
  - subst c. rewrite Ascii.eqb_refl. cbn [andb].
    destruct s as [|d s]; [reflexivity |].
    cbn [starts_with_slash String.prefix].
    destruct (ascii_dec "/"%char d) as [E | E].
    + subst d. rewrite Ascii.eqb_refl. now destruct s.
    + symmetry. apply Ascii.eqb_neq. congruence.
  - assert (Ascii.eqb c "."%char = false) as ->; [| reflexivity].
    apply Ascii.eqb_neq. congruence.
Qed.

Lemma strip_dot_slash_nil : strip_dot_slash "" = "".
Proof. reflexivity. Qed.

Lemma strip_dot_slash_hit (s : string) :
  strip_dot_slash (String "."%char (String "/"%char s)) = strip_dot_slash s.
Proof.
  unfold strip_dot_slash, PyStr.replace.
  cbn [PyStr.replace_from]. rewrite prefix_dot_slash. reflexivity.
Qed.

Lemma strip_dot_slash_keep (c : ascii) (s : string) :
  Ascii.eqb c "."%char && starts_with_slash s = false ->
  strip_dot_slash (String c s) = String c (strip_dot_slash s).
Proof.
  intros H. unfold strip_dot_slash, PyStr.replace.
  cbn [PyStr.replace_from]. now rewrite prefix_dot_slash, H.
Qed.

Lemma no_slash_cons (c : ascii) (s : string) :
  no_slash (String c s) = negb (Ascii.eqb c "/"%char) && no_slash s.
Proof. reflexivity. Qed.

Lemma no_slash_start (s t : string) :
  no_slash s = true -> s <> "" -> starts_with_slash (s +:+ t) = false.
Proof.
  destruct s as [|d s]; [congruence |].
  rewrite no_slash_cons. intros H _. cbn.
  apply andb_true_iff in H. destruct H as [H _].
  now apply negb_true_iff in H.
Qed.

Lemma strip_dot_slash_plain (s : string) :
  no_slash s = true -> strip_dot_slash s = s.
Proof.
  induction s as [|c s IH]; [reflexivity |].
  rewrite no_slash_cons. intros H.
  apply andb_true_iff in H. destruct H as [Hc Hs].
  rewrite strip_dot_slash_keep.
  - now rewrite IH.
  - destruct s as [|d s]; [apply andb_false_r |].
    rewrite no_slash_cons in Hs. apply andb_true_iff in Hs.
    destruct Hs as [Hd _]. apply negb_true_iff in Hd.
    cbn [starts_with_slash]. rewrite Hd. apply andb_false_r.
Qed.

(** A suffix of one character is decided by the last character. *)
Lemma endswith_char_one (c x : ascii) :
  PyStr.endswith (String c "") (String x "") = Ascii.eqb c x.
Proof.
  unfold PyStr.endswith.
  cbn [String.length Nat.sub Nat.leb String.substring andb String.eqb].
  now destruct (Ascii.eqb c x).
Qed.

Lemma endswith_char_cons (c d x : ascii) (s : string) :
  PyStr.endswith (String c (String d s)) (String x "")
  = PyStr.endswith (String d s) (String x "").
Proof.
  unfold PyStr.endswith. cbn [String.length Nat.leb Nat.sub andb].
  rewrite !Nat.sub_0_r. reflexivity.
Qed.

Lemma drop_last_one_cons (c d : ascii) (s : string) :
  PyStr.drop_last 1 (String c (String d s))
  = String c (PyStr.drop_last 1 (String d s)).
Proof.
  unfold PyStr.drop_last. cbn [String.length Nat.sub].
  rewrite !Nat.sub_0_r. reflexivity.
Qed.

Lemma norm_component_cons (c d : ascii) (s : string) :
  norm_component (String c (String d s))
  = String c (norm_component (String d s)).
Proof.
  unfold norm_component. rewrite endswith_char_cons, drop_last_one_cons.
  now destruct (PyStr.endswith (String d s) ".").
Qed.

Lemma norm_component_one (c : ascii) :
  norm_component (String c "")
  = if Ascii.eqb c "."%char then "" else String c "/".
Proof.
  unfold norm_component.
  change (PyStr.endswith (String c "") ".")
    with (PyStr.endswith (String c "") (String "."%char "")).
  rewrite endswith_char_one. reflexivity.
Qed.

(** The scan of one directory name and the separator behind it. *)
Lemma strip_dot_slash_component (a : string) :
  no_slash a = true ->
  forall s, strip_dot_slash (a +:+ "/" +:+ s)
            = norm_component a +:+ strip_dot_slash s.
Proof.
  induction a as [|c a IH]; intros Ha s.
  - cbn [String.append]. now rewrite strip_dot_slash_keep.
  - rewrite no_slash_cons in Ha. apply andb_true_iff in Ha.
    destruct Ha as [Hc Ha]. destruct a as [|d a].
    + rewrite norm_component_one. cbn [String.append].
      destruct (Ascii.eqb c "."%char) eqn:E.
      * apply Ascii.eqb_eq in E. subst c. apply strip_dot_slash_hit.
      * rewrite strip_dot_slash_keep by (now rewrite E).
        now rewrite strip_dot_slash_keep.
    + rewrite norm_component_cons.
      change (String c (String d a) +:+ "/" +:+ s)
        with (String c (String d a +:+ "/" +:+ s)).
      rewrite strip_dot_slash_keep.
      * rewrite (IH Ha s). reflexivity.
      * rewrite (no_slash_start (String d a) ("/" +:+ s) Ha) by discriminate.
        apply andb_false_r.
Qed.

Lemma strip_dot_slash_components (cs : list string) (rest : string) :
  forallb no_slash cs = true ->
  strip_dot_slash (PyStr.join (map (fun c => c +:+ "/") cs) +:+ rest)
  = PyStr.join (map norm_component cs) +:+ strip_dot_slash rest.
Proof.
  induction cs as [|c cs IH]; intros H; [reflexivity |].
  cbn [forallb] in H. apply andb_true_iff in H. destruct H as [Hc Hcs].
  cbn [map PyStr.join foldr]. fold (PyStr.join (map (fun c => c +:+ "/") cs)).
  fold (PyStr.join (map norm_component cs)).
  rewrite !append_assoc. rewrite strip_dot_slash_component by exact Hc.
  now rewrite IH.
Qed.

(** ** The paths [os.walk] reports *)

Lemma endswith_char_nil (x : ascii) : PyStr.endswith "" (String x "") = false.
Proof. reflexivity. Qed.

Lemma endswith_char_app (a b : string) (x : ascii) :
  b <> "" ->
  PyStr.endswith (a +:+ b) (String x "") = PyStr.endswith b (String x "").
Proof.
  destruct b as [|d b]; [congruence |]. intros _.
  induction a as [|c a IH]; [reflexivity |].
  rewrite <- IH. destruct a as [|c' a]; cbn [String.append];
    apply endswith_char_cons.
Qed.

Lemma no_slash_endswith (s : string) :
  no_slash s = true -> PyStr.endswith s "/" = false.
Proof.
  induction s as [|c s IH]; [reflexivity |].
  rewrite no_slash_cons. intros H.
  apply andb_true_iff in H. destruct H as [Hc Hs].
  destruct s as [|d s].
  - change (PyStr.endswith (String c "") (String "/"%char "") = false).
    rewrite endswith_char_one. now apply negb_true_iff in Hc.
  - change (PyStr.endswith (String c (String d s)) (String "/"%char "") = false).
    rewrite endswith_char_cons. now apply IH.
Qed.

Lemma proper_name_parts (s : string) :
  proper_name s = true -> s <> "" /\ no_slash s = true.
Proof.
  unfold proper_name. intros H. apply andb_true_iff in H.
  destruct H as [Hn Hs]. split; [| exact Hs].
  intros ->. discriminate Hn.
Qed.

Lemma proper_name_start (s : string) :
  proper_name s = true -> PyStr.startswith s "/" = false.
Proof.
  intros H. destruct (proper_name_parts s H) as [Hn Hs].
  apply prefix_slash_false. destruct s as [|d s]; [exact I |].
  rewrite no_slash_cons in Hs. apply andb_true_iff in Hs.
  destruct Hs as [Hd _]. apply negb_true_iff in Hd.
  rewrite Ascii.eqb_sym. exact Hd.
Qed.

Lemma path_join_plain (a b : string) :
  a <> "" -> PyStr.endswith a "/" = false -> proper_name b = true ->
  Fs.path_join a b = a +:+ "/" +:+ b.
Proof.
  intros Ha He Hb. unfold Fs.path_join.
  rewrite (proper_name_start b Hb), He.
  destruct a as [|c a]; [congruence | reflexivity].
Qed.

Lemma foldl_path_join (cs : list string) :
  forallb proper_name cs = true ->
  forall acc, acc <> "" -> PyStr.endswith acc "/" = false ->
    foldl Fs.path_join acc cs
    = acc +:+ PyStr.join (map (fun c => "/" +:+ c) cs)
    /\ foldl Fs.path_join acc cs <> ""
    /\ PyStr.endswith (foldl Fs.path_join acc cs) "/" = false.
Proof.
  induction cs as [|c cs IH]; intros H acc Ha He.
  - cbn. now rewrite append_nil_r.
  - cbn [forallb] in H. apply andb_true_iff in H. destruct H as [Hc Hcs].
    destruct (proper_name_parts c Hc) as [Hn Hs].
    cbn [foldl]. rewrite (path_join_plain acc c Ha He Hc).
    destruct (IH Hcs (acc +:+ "/" +:+ c)) as (E & N & S).
    + destruct acc; [congruence | discriminate].
    + rewrite <- append_assoc.
      change (PyStr.endswith ((acc +:+ "/") +:+ c) (String "/"%char "") = false).
      rewrite endswith_char_app by exact Hn. now apply no_slash_endswith.
    + split; [| split; assumption].
      rewrite E. cbn [map PyStr.join foldr].
      now rewrite !append_assoc.
Qed.

Lemma separators_shift (cs : list string) (x : string) :
  PyStr.join (map (fun c => "/" +:+ c) cs) +:+ "/" +:+ x
  = "/" +:+ PyStr.join (map (fun c => c +:+ "/") cs) +:+ x.
Proof.
  induction cs as [|c cs IH]; [reflexivity |].
  cbn [map PyStr.join foldr].
  fold (PyStr.join (map (fun c => "/" +:+ c) cs)).
  fold (PyStr.join (map (fun c => c +:+ "/") cs)).
  rewrite !append_assoc. rewrite IH. reflexivity.
Qed.

Lemma joined_path_shape (cs : list string) (file : string) :
  forallb proper_name cs = true -> proper_name file = true ->
  Fs.path_join (root_of cs) file
  = "./" +:+ PyStr.join (map (fun c => c +:+ "/") cs) +:+ file.
Proof.
  intros Hcs Hf. unfold root_of.
  destruct (foldl_path_join cs Hcs ".") as (E & N & S);
    [discriminate | reflexivity |].
  rewrite (path_join_plain _ file N S Hf), E.
  rewrite append_assoc, separators_shift. reflexivity.
Qed.

Lemma proper_names_no_slash (cs : list string) :
  forallb proper_name cs = true -> forallb no_slash cs = true.
Proof.
  induction cs as [|c cs IH]; [reflexivity |].
  cbn [forallb]. intros H. apply andb_true_iff in H. destruct H as [Hc Hcs].
  destruct (proper_name_parts c Hc) as [_ ->]. now rewrite IH.
Qed.

Lemma full_path_of_components (cs : list string) (file : string) :
  forallb proper_name cs = true -> proper_name file = true ->
  full_path_of (root_of cs) file = PyStr.join (map norm_component cs) +:+ file.
Proof.
  intros Hcs Hf. unfold full_path_of.
  rewrite (joined_path_shape cs file Hcs Hf).
  fold (strip_dot_slash ("./" +:+ PyStr.join (map (fun c => c +:+ "/") cs) +:+ file)).
  change ("./" +:+ PyStr.join (map (fun c => c +:+ "/") cs) +:+ file)
    with (String "."%char (String "/"%char
            (PyStr.join (map (fun c => c +:+ "/") cs) +:+ file))).
  rewrite strip_dot_slash_hit.
  rewrite strip_dot_slash_components by (now apply proper_names_no_slash).
  rewrite strip_dot_slash_plain; [reflexivity |].
  now destruct (proper_name_parts file Hf).
Qed.

Lemma norm_component_dot (d : string) : norm_component (d +:+ ".") = d.
Proof.
  unfold norm_component. rewrite endswith_app.
  apply (drop_last_app d ".").
Qed.

Lemma no_slash_starts (s : string) : no_slash s = true -> starts_with_slash s = false.
Proof.
  destruct s as [|d s]; [reflexivity |].
  rewrite no_slash_cons. intros H. apply andb_true_iff in H.
  destruct H as [H _]. now apply negb_true_iff in H.
Qed.

Lemma no_slash_occurs (s : string) : no_slash s = true -> occurs_dot_slash s = false.
Proof.
  induction s as [|c s IH]; [reflexivity |].
  rewrite no_slash_cons. intros H. apply andb_true_iff in H.
  destruct H as [_ Hs]. cbn [occurs_dot_slash].
  now rewrite (no_slash_starts s Hs), andb_false_r, IH.
Qed.

Lemma norm_component_clean (c : string) :
  no_slash c = true -> c <> "" ->
  forall t, starts_with_slash t = false -> occurs_dot_slash t = false ->
    occurs_dot_slash (norm_component c +:+ t) = false
    /\ starts_with_slash (norm_component c +:+ t) = false.
Proof.
  induction c as [|c0 c IH]; [congruence |].
  rewrite no_slash_cons. intros H _ t Ht Ho.
  apply andb_true_iff in H. destruct H as [Hc0 Hc].
  apply negb_true_iff in Hc0.
  destruct c as [|d c].
  - rewrite norm_component_one. destruct (Ascii.eqb c0 "."%char) eqn:E.
    + now split.
    + cbn [String.append occurs_dot_slash starts_with_slash].
      rewrite E, Ho, Hc0. split; reflexivity.
  - rewrite norm_component_cons.
    destruct (IH Hc ltac:(discriminate) t Ht Ho) as [Io Is].
    cbn [String.append occurs_dot_slash starts_with_slash].
    rewrite Is, Io, Hc0, andb_false_r. split; reflexivity.
Qed.

Lemma normalised_path_clean (cs : list string) (file : string) :
  forallb proper_name cs = true -> proper_name file = true ->
  occurs_dot_slash (PyStr.join (map norm_component cs) +:+ file) = false
  /\ starts_with_slash (PyStr.join (map norm_component cs) +:+ file) = false.
Proof.
  intros Hcs Hf. destruct (proper_name_parts file Hf) as [_ Hs].
  induction cs as [|c cs IH].
  - cbn. split; [now apply no_slash_occurs | now apply no_slash_starts].
  - cbn [forallb] in Hcs. apply andb_true_iff in Hcs. destruct Hcs as [Hc Hcs].
    destruct (proper_name_parts c Hc) as [Hn Hcs'].
    destruct (IH Hcs) as [Io Is].
    cbn [map PyStr.join foldr]. fold (PyStr.join (map norm_component cs)).
    rewrite append_assoc. now apply norm_component_clean.
Qed.

(** C10.  For a file found in the directory reached from the top through
    the directories [cs], the joined path is [./], every directory name
    followed by a slash, and the file name.  The replacement takes away
    the leading [./] and, for every directory whose name ends in a dot,
    that dot and the slash behind it; no [./] is left.  So the path of a
    page below a directory [d.] starts with [d] followed at once by what
    comes next, and the URL path is derived from that altered path. *)
Theorem replace_removes_every_dot_slash (cs : list string) (file : string)
  (Hcs : forallb proper_name cs = true) (Hfile : proper_name file = true) :
  Fs.path_join (root_of cs) file
  = "./" +:+ PyStr.join (map (fun c => c +:+ "/") cs) +:+ file
  /\ full_path_of (root_of cs) file = PyStr.join (map norm_component cs) +:+ file
  /\ occurs_dot_slash (full_path_of (root_of cs) file) = false
  /\ (forall d : string, norm_component (d +:+ ".") = d)
  /\ (forall c : string, PyStr.endswith c "." = false -> norm_component c = c +:+ "/")
  /\ (PyStr.endswith file ".html" = true ->
      forall dirs : list string,
        html_of_item (root_of cs, dirs, [file])
        = [url_path_of (PyStr.join (map norm_component cs) +:+ file)]).
Proof.
  pose proof (full_path_of_components cs file Hcs Hfile) as F.
  split; [now apply joined_path_shape |].
  split; [exact F |].
  split; [rewrite F; now apply normalised_path_clean |].
  split; [exact norm_component_dot |].
  split.
  - intros c H. unfold norm_component. now rewrite H.
  - intros H dirs. cbn [html_of_item flat_map]. now rewrite H, F.
Qed.

Lemma replace_removes_every_dot_slash_witness :
  Fs.path_join (root_of ["a."; "c.."]) "index.html" = "./a./c../index.html"
  /\ full_path_of (root_of ["a."; "c.."]) "index.html" = "ac.index.html"
  /\ html_of_item (root_of ["a."; "c.."], [], ["index.html"]) = ["ac."].
Proof.
  destruct (replace_removes_every_dot_slash ["a."; "c.."] "index.html"
              eq_refl eq_refl) as (J & F & _ & _ & _ & H).
  split; [exact J |]. split; [exact F |]. exact (H eq_refl []).
Defined.

Example dotted_directory_site :
  html_files_in
    [Fs.Dir "a." [Fs.File "b.html" ""; Fs.Dir "c.." [Fs.File "index.html" ""]]]
  = ["ab.html"; "ac."].
Proof. vm_compute. reflexivity. Qed.

(** ** Every discovered page has such a path *)

Lemma entry_induction (P : Fs.entry -> Prop) :
  (forall n c, P (Fs.File n c)) ->
  (forall n es, Forall P es -> P (Fs.Dir n es)) ->
  forall e, P e.
Proof.
  intros P_file P_dir.
  exact (fix rec (e : Fs.entry) : P e :=
           match e with
           | Fs.File n c => P_file n c
           | Fs.Dir n es =>
               P_dir n es
                 ((fix all (l : list Fs.entry) : Forall P l :=
                     match l with
                     | [] => @List.Forall_nil _ P
                     | x :: l' => @List.Forall_cons _ P x l' (rec x) (all l')
                     end) es)
           end).
Qed.

Lemma entry_ok_name (e : Fs.entry) : entry_ok e = true -> proper_name (Fs.name_of e) = true.
Proof.
  destruct e as [n c | n es]; cbn; [auto |].
  intros H. apply andb_true_iff in H. now destruct H.
Qed.

Lemma file_names_proper (es : list Fs.entry) :
  forallb entry_ok es = true -> forallb proper_name (Fs.file_names es) = true.
Proof.
  intros H. apply forallb_forall. intros n Hn.
  unfold Fs.file_names in Hn. apply in_map_iff in Hn.
  destruct Hn as (e & <- & He).
  apply list_elem_of_In, list_elem_of_filter in He. destruct He as [_ He].
  apply list_elem_of_In in He.
  apply entry_ok_name. rewrite forallb_forall in H. now apply H.
Qed.

Lemma root_of_snoc (cs : list string) (n : string) :
  root_of (cs ++ [n]) = Fs.path_join (root_of cs) n.
Proof. unfold root_of. now rewrite foldl_app. Qed.

Lemma walk_from_items (prune : list string -> list string) (e : Fs.entry) :
  forall (cs : list string) (item : Fs.walk_item),
    forallb proper_name cs = true ->
    match e with
    | Fs.Dir _ es => forallb entry_ok es = true
    | Fs.File _ _ => True
    end ->
    In item (Fs.walk_from prune (root_of cs) e) ->
    exists cs', item.1.1 = root_of cs'
                /\ forallb proper_name cs' = true
                /\ forallb proper_name item.2 = true.
Proof.
  induction e as [n c | n es IH] using entry_induction;
    intros cs item Hcs Hes Hin.
  - destruct Hin.
  - cbn [Fs.walk_from] in Hin. destruct Hin as [<- | Hin].
    + exists cs. cbn. split; [reflexivity |]. split; [exact Hcs |].
      now apply file_names_proper.
    + apply in_flat_map in Hin. destruct Hin as (d & Hd & Hin).
      rewrite List.Forall_forall in IH. specialize (IH d Hd).
      rewrite forallb_forall in Hes. specialize (Hes d Hd).
      destruct d as [m c | m es']; [destruct Hin |].
      destruct (bool_decide (m ∈ prune (Fs.dir_names es))); [| destruct Hin].
      cbn [entry_ok] in Hes. apply andb_true_iff in Hes.
      destruct Hes as [Hm Hes'].
      rewrite <- root_of_snoc in Hin.
      apply (IH (cs ++ [m]) item); [| exact Hes' | exact Hin].
      rewrite forallb_app. cbn [forallb]. now rewrite Hcs, Hm.
Qed.

Lemma discovered_paths (es : list Fs.entry) (u : string) :
  forallb entry_ok es = true ->
  In u (html_files_in es) ->
  exists cs file,
    forallb proper_name cs = true
    /\ proper_name file = true
    /\ PyStr.endswith file ".html" = true
    /\ u = url_path_of (PyStr.join (map norm_component cs) +:+ file).
Proof.
  intros Hes Hu. unfold html_files_in in Hu.
  apply in_flat_map in Hu. destruct Hu as (item & Hitem & Hu).
  destruct (walk_from_items skip_git (Fs.Dir "." es) [] item eq_refl Hes Hitem)
    as (cs & Hroot & Hcs & Hfiles).
  destruct item as [[root dirs] files]. cbn in Hroot, Hfiles. subst root.
  cbn [html_of_item] in Hu. apply in_flat_map in Hu.
  destruct Hu as (file & Hfile & Hu).
  rewrite forallb_forall in Hfiles. specialize (Hfiles file Hfile).
  destruct (PyStr.endswith file ".html") eqn:E; [| destruct Hu].
  destruct Hu as [<- | []].
  exists cs, file. repeat split; try assumption.
  now rewrite full_path_of_components.
Qed.

(** * Further properties of the script *)

(** ** The domain is trimmed, and an empty [CNAME] is no missing [CNAME] *)

Section StripTwice.
Variable p : ascii -> bool.

Lemma lstrip_by_fixed (s : string) :
  match s with
  | EmptyString => True
  | String c _ => p c = false
  end ->
  PyStr.lstrip_by p s = s.
Proof. destruct s as [|c s]; [reflexivity |]. cbn. now intros ->. Qed.

Lemma lstrip_by_twice (s : string) :
  PyStr.lstrip_by p (PyStr.lstrip_by p s) = PyStr.lstrip_by p s.
Proof. apply lstrip_by_fixed, lstrip_by_head. Qed.

Lemma rstrip_by_cons (c : ascii) (s : string) :
  PyStr.rstrip_by p (String c s)
  = match PyStr.rstrip_by p s with
    | EmptyString => if p c then EmptyString else String c EmptyString
    | String d r => String c (String d r)
    end.
Proof. reflexivity. Qed.

Lemma rstrip_by_twice (s : string) :
  PyStr.rstrip_by p (PyStr.rstrip_by p s) = PyStr.rstrip_by p s.
Proof.
  induction s as [|c s IH]; [reflexivity |].
  rewrite rstrip_by_cons.
  destruct (PyStr.rstrip_by p s) as [|d r] eqn:E.
  - destruct (p c) eqn:Hc; [reflexivity |]. cbn. now rewrite Hc.
  - rewrite rstrip_by_cons, IH. reflexivity.
Qed.

Lemma rstrip_by_keeps_head (s : string) :
  PyStr.lstrip_by p s = s ->
  PyStr.lstrip_by p (PyStr.rstrip_by p s) = PyStr.rstrip_by p s.
Proof.
  destruct s as [|c s]; [reflexivity |].
  cbn [PyStr.lstrip_by]. destruct (p c) eqn:Hc.
  - intros H. exfalso.
    assert (String.length (PyStr.lstrip_by p s) <= String.length s) as L.
    { clear H. induction s as [|d s IH]; cbn; [lia |].
      destruct (p d); cbn; lia. }
    rewrite H in L. cbn in L. lia.
  - intros _. rewrite rstrip_by_cons.
    destruct (PyStr.rstrip_by p s); rewrite ?Hc; cbn [PyStr.lstrip_by];
      now rewrite Hc.
Qed.

End StripTwice.

Lemma strip_twice (s : string) : PyStr.strip (PyStr.strip s) = PyStr.strip s.
Proof.
  unfold PyStr.strip.
  rewrite rstrip_by_keeps_head by apply lstrip_by_twice.
  apply rstrip_by_twice.
Qed.

(** X1.  When [CNAME] can be read, the domain returned has no whitespace
    left at either end, nothing is printed, and a file that holds only
    whitespace (or nothing) gives the empty domain: the default
    [example.com] is for a missing file only. *)
Theorem domain_is_trimmed (w : World) (n c : string)
  (Hfile : Fs.lookup "CNAME" (cwd w) = Some (Fs.File n c))
  (Hread : read_denied w "CNAME" = false) :
  exists d,
    get_domain_from_cname w = (Ok d, w)
    /\ PyStr.lstrip_by PyStr.isspace d = d
    /\ PyStr.rstrip_by PyStr.isspace d = d
    /\ PyStr.strip d = d
    /\ (PyStr.all_chars PyStr.isspace c = true -> d = "").
Proof.
  exists (PyStr.strip c).
  split; [now apply (get_domain_found w n c) |].
  split; [| split; [| split]].
  - unfold PyStr.strip. apply rstrip_by_keeps_head, lstrip_by_twice.
  - unfold PyStr.strip. apply rstrip_by_twice.
  - apply strip_twice.
  - intros H. unfold PyStr.strip. now rewrite (lstrip_by_all _ c H).
Qed.

Lemma domain_is_trimmed_witness :
  get_domain_from_cname
    (world_of [Fs.File "CNAME" (" " +:+ LF)] (fun i => i))
  = (Ok "", world_of [Fs.File "CNAME" (" " +:+ LF)] (fun i => i)).
Proof.
  destruct (domain_is_trimmed
              (world_of [Fs.File "CNAME" (" " +:+ LF)] (fun i => i))
              "CNAME" (" " +:+ LF) eq_refl eq_refl)
    as (d & G & _ & _ & _ & E).
  rewrite (E eq_refl) in G. exact G.
Defined.

(** ** No chunk is empty *)

Lemma chunk_count_strict (n : nat) (l : list string) (i : nat) :
  0 < n -> i < chunk_count n l -> i * n < length l.
Proof.
  unfold chunk_count. intros Hn Hi.
  pose proof (Nat.div_mod_eq (length l + n - 1) n) as E.
  pose proof (Nat.mod_upper_bound (length l + n - 1) n) as B.
  nia.
Qed.

Lemma chunk_count_small (n : nat) (l : list string) :
  0 < length l <= n -> chunk_count n l = 1.
Proof.
  unfold chunk_count. intros H.
  assert (length l + n - 1 = n + (length l - 1)) as -> by lia.
  assert (0 < n) as Hn by lia.
  pose proof (Nat.div_mod_eq (n + (length l - 1)) n) as E.
  pose proof (Nat.mod_upper_bound (n + (length l - 1)) n) as B.
  nia.
Qed.

(** X2.  The chunk list of [main] has one chunk for every started group
    of 2000 URLs and never an empty one, so no fragment without a URL is
    written; a site of 1 to 2000 pages gives the single chunk of all its
    URLs, and a site without pages gives no chunk. *)
Theorem chunks_never_empty (all_urls : list string) :
  length (chunks_of MAX_URLS all_urls) = (length all_urls + 1999) / 2000
  /\ Forall (fun c => c <> []) (chunks_of MAX_URLS all_urls)
  /\ (0 < length all_urls <= 2000 -> chunks_of MAX_URLS all_urls = [all_urls])
  /\ (all_urls = [] -> chunks_of MAX_URLS all_urls = []).
Proof.
  split; [| split; [| split]].
  - rewrite chunks_of_length. unfold chunk_count.
    replace (length all_urls + MAX_URLS - 1) with (length all_urls + 1999);
      [reflexivity | unfold MAX_URLS; lia].
  - apply List.Forall_forall. intros c Hc.
    apply list_elem_of_In, list_elem_of_lookup in Hc. destruct Hc as [i Hi].
    destruct (chunks_of_lookup MAX_URLS all_urls i c Hi) as [Hlt ->].
    pose proof (chunk_count_strict MAX_URLS all_urls i MAX_URLS_pos Hlt) as S.
    intros E. apply (f_equal length) in E.
    rewrite length_take, length_drop in E. cbn [length] in E.
    pose proof MAX_URLS_pos. lia.
  - intros H. rewrite chunks_of_count.
    rewrite (chunk_count_small MAX_URLS all_urls H).
    cbn [seq map]. rewrite Nat.mul_0_l. cbn [drop].
    rewrite take_ge; [reflexivity |]. apply H.
  - intros ->. apply chunks_of_nil.
Qed.

(** ** The index depends on the set of names only *)

Lemma sorted_set_same (l1 l2 : list string) :
  l1 ⊆ l2 -> l2 ⊆ l1 -> sorted_set l1 = sorted_set l2.
Proof.
  intros H1 H2. unfold sorted_set.
  assert ((list_to_set l1 : gset string) = list_to_set l2) as ->; [| reflexivity].
  apply set_eq. intros f. rewrite !elem_of_list_to_set. split; auto.
Qed.

Lemma sorted_set_length (l : list string) : length (sorted_set l) <= length l.
Proof.
  rewrite sorted_set_perm. apply submseteq_length, NoDup_submseteq.
  - apply NoDup_elements.
  - intros f. rewrite elem_of_elements. apply elem_of_list_to_set.
Qed.

(** X3.  [create_main_index] writes the same document for two lists of
    names that have the same members, whatever their order and however
    often a name is repeated; the index never has more entries than the
    list has names, and sorting a sorted list of names changes nothing. *)
Theorem index_ignores_order_and_repeats (l1 l2 : list string) (domain : string)
  (H12 : l1 ⊆ l2) (H21 : l2 ⊆ l1) :
  create_main_index l1 domain = create_main_index l2 domain
  /\ index_document l1 domain = index_document l2 domain
  /\ length (sorted_set l1) <= length l1
  /\ sorted_set (sorted_set l1) = sorted_set l1.
Proof.
  assert (index_document l1 domain = index_document l2 domain) as E.
  { unfold index_document. now rewrite (sorted_set_same l1 l2 H12 H21). }
  split; [unfold create_main_index; now rewrite E |].
  split; [exact E |]. split; [apply sorted_set_length |].
  apply sorted_set_same; intros f; rewrite sorted_set_elem; auto.
Qed.

Lemma index_ignores_order_and_repeats_witness :
  index_document ["sm_b.xml"; "sm_a.xml"; "sm_b.xml"] "example.org"
  = index_document ["sm_a.xml"; "sm_b.xml"] "example.org".
Proof.
  apply (index_ignores_order_and_repeats
           ["sm_b.xml"; "sm_a.xml"; "sm_b.xml"] ["sm_a.xml"; "sm_b.xml"]
           "example.org");
    refine (bool_decide_unpack _ _); vm_compute; exact I.
Defined.

(** ** What the scanner of existing fragments accepts *)

Lemma fullmatch_Eps_inv (s : string) : Re.fullmatch Re.Eps s = true -> s = "".
Proof.
  destruct s as [|c s]; [reflexivity |].
  cbn [Re.fullmatch Re.deriv]. now rewrite fullmatch_Void.
Qed.

Lemma fullmatch_Class_inv (p : ascii -> bool) (s : string) :
  Re.fullmatch (Re.Class p) s = true -> exists x, s = String x "" /\ p x = true.
Proof.
  destruct s as [|c s]; [discriminate |].
  cbn [Re.fullmatch Re.deriv]. destruct (p c) eqn:Hc.
  - intros H. apply fullmatch_Eps_inv in H. subst s. now exists c.
  - now rewrite fullmatch_Void.
Qed.

Lemma fullmatch_Cat_inv (b : Re.regex) (s : string) :
  forall a, Re.fullmatch (Re.Cat a b) s = true ->
            exists s1 s2, s = s1 +:+ s2
                          /\ Re.fullmatch a s1 = true
                          /\ Re.fullmatch b s2 = true.
Proof.
  induction s as [|c s IH]; intros a H.
  - cbn in H. apply andb_true_iff in H. destruct H as [Ha Hb].
    now exists "", "".
  - cbn [Re.fullmatch Re.deriv] in H.
    destruct (Re.nullable a) eqn:Na.
    + rewrite fullmatch_Alt in H. apply orb_true_iff in H.
      destruct H as [H | H].
      * destruct (IH _ H) as (s1 & s2 & -> & H1 & H2).
        now exists (String c s1), s2.
      * exists "", (String c s). now repeat split.
    + destruct (IH _ H) as (s1 & s2 & -> & H1 & H2).
      now exists (String c s1), s2.
Qed.

Lemma fullmatch_lit_inv (l : string) :
  forall s, Re.fullmatch (Re.lit l) s = true -> s = l.
Proof.
  induction l as [|c l IH]; intros s H.
  - now apply fullmatch_Eps_inv.
  - cbn [Re.lit] in H. apply fullmatch_Cat_inv in H.
    destruct H as (s1 & s2 & -> & H1 & H2).
    apply fullmatch_Class_inv in H1. destruct H1 as (x & -> & Hx).
    apply Ascii.eqb_eq in Hx. subst x. rewrite (IH s2 H2). reflexivity.
Qed.

Lemma fullmatch_Star_class_inv (p : ascii -> bool) (s : string) :
  Re.fullmatch (Re.Star (Re.Class p)) s = true -> PyStr.all_chars p s = true.
Proof.
  induction s as [|c s IH]; [reflexivity |].
  cbn [Re.fullmatch Re.deriv PyStr.all_chars]. intros H.
  apply fullmatch_Cat_inv in H. destruct H as (s1 & s2 & E & H1 & H2).
  destruct (p c).
  - apply fullmatch_Eps_inv in H1. subst s1. cbn in E. subst s2.
    now rewrite IH.
  - now rewrite fullmatch_Void in H1.
Qed.

Lemma fullmatch_plus_class_inv (p : ascii -> bool) (s : string) :
  Re.fullmatch (Re.plus (Re.Class p)) s = true ->
  s <> "" /\ PyStr.all_chars p s = true.
Proof.
  unfold Re.plus. intros H. apply fullmatch_Cat_inv in H.
  destruct H as (s1 & s2 & -> & H1 & H2).
  apply fullmatch_Class_inv in H1. destruct H1 as (x & -> & Hx).
  apply fullmatch_Star_class_inv in H2.
  split; [discriminate |]. cbn. now rewrite Hx, H2.
Qed.

Lemma sitemap_pattern_language (f : string) :
  Re.fullmatch sitemap_pattern f = true
  <-> exists token, token <> ""
                    /\ PyStr.all_chars lower_or_digit token = true
                    /\ f = "sm_" +:+ token +:+ ".xml".
Proof.
  split.
  - unfold sitemap_pattern. intros H.
    apply fullmatch_Cat_inv in H. destruct H as (s1 & s2 & -> & H1 & H2).
    apply fullmatch_lit_inv in H1. subst s1.
    apply fullmatch_Cat_inv in H2. destruct H2 as (t & s3 & -> & Ht & H3).
    apply fullmatch_lit_inv in H3. subst s3.
    apply fullmatch_plus_class_inv in Ht. destruct Ht as [Hn Hc].
    now exists t.
  - intros (t & Hn & Hc & ->). unfold sitemap_pattern.
    apply fullmatch_Cat; [apply fullmatch_lit |].
    apply fullmatch_Cat; [now apply fullmatch_plus_class | apply fullmatch_lit].
Qed.

Lemma substring_split (s : string) :
  forall n, n <= String.length s ->
            String.substring 0 n s +:+ String.substring n (String.length s - n) s = s.
Proof.
  induction s as [|c s IH]; intros [|n] H; cbn in *; try lia.
  - reflexivity.
  - now rewrite substring_all.
  - rewrite IH by lia. reflexivity.
Qed.

Lemma endswith_split (s suf : string) :
  PyStr.endswith s suf = true ->
  s = PyStr.drop_last (String.length suf) s +:+ suf.
Proof.
  unfold PyStr.endswith, PyStr.drop_last. intros H.
  apply andb_true_iff in H. destruct H as [Hl He].
  apply Nat.leb_le in Hl. apply String.eqb_eq in He.
  pose proof (substring_split s (String.length s - String.length suf)) as E.
  replace (String.length s - (String.length s - String.length suf))
    with (String.length suf) in E by lia.
  rewrite He in E. symmetry. apply E. lia.
Qed.

Lemma match_anchored_spec (r : Re.regex) (f : string) :
  Re.match_anchored r f = true
  <-> Re.fullmatch r f = true
      \/ exists g, f = g +:+ LF /\ Re.fullmatch r g = true.
Proof.
  unfold Re.match_anchored. rewrite orb_true_iff, andb_true_iff. split.
  - intros [H | [He Hm]]; [now left | right].
    exists (PyStr.drop_last 1 f). split; [| exact Hm].
    exact (endswith_split f PyStr.LF He).
  - intros [H | (g & -> & Hg)]; [now left | right]. split.
    + apply (endswith_app g PyStr.LF).
    + change (Re.fullmatch r
                (PyStr.drop_last (String.length PyStr.LF) (g +:+ PyStr.LF)) = true).
      now rewrite drop_last_app.
Qed.

(** X4.  [get_existing_sitemaps] returns, in the order of the listing,
    exactly the listed names that are [sm_], a non-empty token of
    lower-case letters and digits, and [.xml], or such a name followed by
    one line feed (where [$] also matches); it never raises and changes
    nothing.  So it never returns [sitemap.xml], [robots.txt] or a name
    with an upper-case letter. *)
Theorem scanner_language (w : World) :
  get_existing_sitemaps w = (Ok (existing_sitemaps_in (cwd w)), w)
  /\ (forall f : string,
        f ∈ existing_sitemaps_in (cwd w)
        <-> f ∈ Fs.listdir (cwd w)
            /\ exists token,
                token <> ""
                /\ PyStr.all_chars lower_or_digit token = true
                /\ (f = "sm_" +:+ token +:+ ".xml"
                    \/ f = ("sm_" +:+ token +:+ ".xml") +:+ LF))
  /\ existing_sitemaps_in (cwd w) `sublist_of` Fs.listdir (cwd w).
Proof.
  split; [reflexivity |]. split.
  - intros f. unfold existing_sitemaps_in.
    rewrite list_elem_of_filter, match_anchored_spec, sitemap_pattern_language.
    split.
    + intros [[(t & Hn & Hc & E) | (g & E & Hg)] Hin]; (split; [exact Hin |]).
      * exists t. auto.
      * apply sitemap_pattern_language in Hg.
        destruct Hg as (t & Hn & Hc & ->). exists t. auto.
    + intros [Hin (t & Hn & Hc & [E | E])]; (split; [| exact Hin]).
      * left. now exists t.
      * right. exists ("sm_" +:+ t +:+ ".xml"). split; [exact E |].
        apply sitemap_pattern_language. now exists t.
  - apply sublist_filter.
Qed.

(** ** The loop over the chunks, turn by turn *)

Lemma env_kept_after_chunk (chunk : list string) (domain : string) (w : World) :
  writable w (name_at (random_source w) (random_used w)) = true ->
  env_kept w (after_chunk chunk domain w).
Proof.
  intros Hw. refine (conj _ (conj _ (conj _ _))); try reflexivity.
  - intros m. cbn [after_chunk cwd]. apply names_dir_put.
    unfold writable in Hw. apply andb_true_iff in Hw. destruct Hw as [Hd _].
    now apply negb_true_iff in Hd.
  - intros m. cbn [after_chunk cwd]. apply is_file_put_mono.
Qed.

Lemma write_chunks_cons_ok (chunk : list string) (rest : list (list string))
      (domain : string) (acc : list string) (w : World) :
  writable w (name_at (random_source w) (random_used w)) = true ->
  write_chunks (chunk :: rest) domain acc w
  = write_chunks rest domain
      (acc ++ [name_at (random_source w) (random_used w)])
      (after_chunk chunk domain w).
Proof.
  intros Hw. cbn [write_chunks]. unfold bind at 1.
  rewrite generate_random_name_run. unfold bind at 1.
  rewrite create_sitemap_chunk_ok by exact Hw.
  unfold bind at 1. reflexivity.
Qed.

Lemma write_chunks_ok (chunks : list (list string)) (domain : string) :
  forall (acc : list string) (w : World),
    forallb (writable w)
            (new_names (random_source w) (random_used w) (length chunks)) = true ->
    write_chunks chunks domain acc w
    = (Ok (acc ++ new_names (random_source w) (random_used w) (length chunks)),
       after_chunks chunks domain w).
Proof.
  induction chunks as [|chunk rest IH]; intros acc w H.
  - cbn. now rewrite app_nil_r.
  - cbn [length new_names forallb] in H. apply andb_true_iff in H.
    destruct H as [Hw Hrest].
    rewrite write_chunks_cons_ok by exact Hw.
    rewrite IH.
    + cbn [after_chunks length new_names after_chunk random_source random_used].
      now rewrite <- app_assoc.
    + rewrite <- Hrest. apply forallb_pointwise. intros m.
      now apply env_kept_writable, env_kept_after_chunk.
Qed.

Lemma after_chunks_kept (chunks : list (list string)) (domain : string) :
  forall w,
    write_denied (after_chunks chunks domain w) = write_denied w
    /\ read_denied (after_chunks chunks domain w) = read_denied w
    /\ random_source (after_chunks chunks domain w) = random_source w
    /\ random_used (after_chunks chunks domain w)
       = 12 * length chunks + random_used w
    /\ clock (after_chunks chunks domain w) = clock w
    /\ clock_used (after_chunks chunks domain w) = length chunks + clock_used w.
Proof.
  induction chunks as [|chunk rest IH]; intros w.
  - cbn [after_chunks length]. repeat split; lia.
  - cbn [after_chunks length].
    destruct (IH (after_chunk chunk domain w)) as (A & B & C & D & E & F).
    rewrite A, B, C, D, E, F. cbn [after_chunk write_denied read_denied
      random_source random_used clock clock_used].
    repeat split; lia.
Qed.

Lemma after_chunks_stdout (chunks : list (list string)) (domain : string) :
  forall w,
    stdout (after_chunks chunks domain w)
    = stdout w
      ++ map (fun n => "Generated new chunk: " +:+ n)
             (new_names (random_source w) (random_used w) (length chunks)).
Proof.
  induction chunks as [|chunk rest IH]; intros w.
  - cbn. now rewrite app_nil_r.
  - cbn [after_chunks length new_names map]. rewrite IH.
    cbn [after_chunk stdout random_source random_used].
    now rewrite <- app_assoc.
Qed.

Lemma after_chunks_frame (chunks : list (list string)) (domain : string) :
  forall w n,
    n ∉ new_names (random_source w) (random_used w) (length chunks) ->
    Fs.lookup n (cwd (after_chunks chunks domain w)) = Fs.lookup n (cwd w).
Proof.
  induction chunks as [|chunk rest IH]; intros w n Hn; [reflexivity |].
  cbn [after_chunks length new_names] in *.
  apply not_elem_of_cons in Hn. destruct Hn as [Hne Hn].
  rewrite IH by exact Hn.
  cbn [after_chunk cwd]. apply lookup_put_ne. congruence.
Qed.

Lemma new_names_lookup (rnd : nat -> nat) (k : nat) :
  forall pos i n,
    new_names rnd pos k !! i = Some n -> n = name_at rnd (12 * i + pos).
Proof.
  induction k as [|k IH]; intros pos i n H; [discriminate |].
  cbn [new_names] in H. destruct i as [|i].
  - cbn in H. injection H as <-. f_equal.
  - cbn [lookup list_lookup] in H. rewrite (IH _ _ _ H). f_equal. lia.
Qed.

Lemma new_names_length (rnd : nat -> nat) (k : nat) :
  forall pos, length (new_names rnd pos k) = k.
Proof. induction k as [|k IH]; intros pos; cbn; [reflexivity | now rewrite IH]. Qed.

(** The fragment of the [i]-th chunk is there after the loop unless a
    later chunk drew the same name. *)
Lemma after_chunks_content (chunks : list (list string)) (domain : string) :
  forall w i chunk n,
    chunks !! i = Some chunk ->
    new_names (random_source w) (random_used w) (length chunks) !! i = Some n ->
    n ∉ drop (S i) (new_names (random_source w) (random_used w) (length chunks)) ->
    Fs.lookup n (cwd (after_chunks chunks domain w))
    = Some (Fs.File n (chunk_document chunk domain (clock w (i + clock_used w)))).
Proof.
  induction chunks as [|c rest IH]; intros w i chunk n Hc Hn Hlater;
    [discriminate |].
  cbn [after_chunks length new_names] in *. destruct i as [|i].
  - cbn in Hc, Hn, Hlater. injection Hc as <-. injection Hn as <-.
    rewrite after_chunks_frame by exact Hlater.
    cbn [after_chunk cwd]. apply lookup_put_eq.
  - cbn [lookup list_lookup drop] in Hc, Hn, Hlater.
    rewrite (IH (after_chunk c domain w) i chunk n Hc Hn Hlater).
    cbn [after_chunk clock clock_used].
    replace (i + S (clock_used w)) with (S i + clock_used w) by lia.
    reflexivity.
Qed.





(** ** [main], step by step *)

Lemma name_at_not_fixed (rnd : nat -> nat) (pos : nat) :
  name_at rnd pos <> "sitemap.xml" /\ name_at rnd pos <> "robots.txt".
Proof. unfold name_at. cbn [String.append]. split; discriminate. Qed.

Lemma new_names_not_fixed (rnd : nat -> nat) (k : nat) :
  forall pos, ("sitemap.xml" ∉ new_names rnd pos k)
              /\ ("robots.txt" ∉ new_names rnd pos k).
Proof.
  induction k as [|k IH]; intros pos; cbn [new_names].
  - split; apply not_elem_of_nil.
  - destruct (IH (12 + pos)) as [A B].
    destruct (name_at_not_fixed rnd pos) as [C D].
    split; apply not_elem_of_cons; split; congruence.
Qed.


Lemma main_to_finish (w : World) (domain : string) (w1 : World) :
  get_domain_from_cname w = (Ok domain, w1) ->
  forallb (writable w) (created_in w) = true ->
  main w
  = finish domain (existing_sitemaps_in (cwd w) ++ created_in w)
           (after_chunks (chunks_of MAX_URLS (html_files_in (cwd w))) domain w1).
Proof.
  intros Hd Hw. pose proof (get_domain_run w) as G. rewrite Hd in G.
  destruct G as [_ S]. pose proof (same_files_env_kept _ _ S) as K.
  destruct S as (Scwd & _ & Srs & Sru).
  unfold main. unfold bind at 1. rewrite Hd.
  unfold bind at 1. unfold get_all_html_files at 1, get_cwd, bind at 1, ret at 1.
  unfold bind at 1. unfold get_existing_sitemaps at 1, get_cwd, bind at 1, ret at 1.
  rewrite Scwd. unfold bind at 1.
  rewrite write_chunks_ok.
  - rewrite Srs, Sru. reflexivity.
  - rewrite Srs, Sru. fold (created_in w). rewrite <- Hw.
    apply forallb_pointwise. intros m. now apply env_kept_writable.
Qed.

Lemma finish_ok (domain : string) (total : list string) (v : World) :
  writable v "sitemap.xml" = true -> writable v "robots.txt" = true ->
  finish domain total v = (Ok tt, after_finish domain total v).
Proof.
  intros Hs Hr. unfold finish, create_main_index, create_robots_txt.
  unfold bind at 1. rewrite write_file_ok by exact Hs.
  unfold bind at 1. cbn [print]. rewrite write_file_ok; [reflexivity |].
  etransitivity; [| exact Hr].
  apply (env_kept_writable v).
  refine (env_kept_trans _ _ _ (env_kept_write "sitemap.xml" _ v Hs) _).
  apply same_files_env_kept. repeat split.
Qed.

Lemma finish_index_refused (domain : string) (total : list string) (v : World) :
  writable v "sitemap.xml" = false ->
  exists e, finish domain total v = (Raise e, v).
Proof.
  intros Hs. unfold finish, create_main_index. unfold bind at 1.
  destruct (write_file_fail "sitemap.xml" (index_document total domain) v Hs)
    as [e E].
  rewrite E. now exists e.
Qed.

Lemma io_ok_parts (w : World) :
  io_ok w = true ->
  cname_ok w = true
  /\ forallb (writable w) (created_in w) = true
  /\ writable w "sitemap.xml" = true
  /\ writable w "robots.txt" = true.
Proof.
  rewrite io_ok_split. intros H.
  apply andb_true_iff in H. destruct H as [A H].
  apply andb_true_iff in H. destruct H as [B H].
  apply andb_true_iff in H. destruct H as [C D]. auto.
Qed.

Lemma get_domain_ok (w : World) :
  cname_ok w = true ->
  exists domain w1,
    get_domain_from_cname w = (Ok domain, w1)
    /\ same_files w w1
    /\ read_denied w1 = read_denied w
    /\ clock w1 = clock w /\ clock_used w1 = clock_used w.
Proof.
  unfold cname_ok, get_domain_from_cname, try_except, bind, read_file.
  destruct (Fs.lookup "CNAME" (cwd w)) as [[n c | n es] |]; cbn.
  - destruct (read_denied w "CNAME"); cbn; [discriminate |]. intros _.
    exists (PyStr.strip c), w. repeat split.
  - discriminate.
  - intros _. eexists _, _. repeat split.
Qed.

(** A run in which nothing fails, with its final world spelled out. *)
Lemma main_explicit (w : World) :
  io_ok w = true ->
  exists domain w1,
    get_domain_from_cname w = (Ok domain, w1)
    /\ same_files w w1
    /\ read_denied w1 = read_denied w
    /\ clock w1 = clock w /\ clock_used w1 = clock_used w
    /\ main w
       = (Ok tt,
          after_finish domain (existing_sitemaps_in (cwd w) ++ created_in w)
            (after_chunks (chunks_of MAX_URLS (html_files_in (cwd w))) domain w1)).
Proof.
  intros Hio. destruct (io_ok_parts w Hio) as (Hc & Hw & Hs & Hr).
  destruct (get_domain_ok w Hc) as (domain & w1 & Hd & S & Rd & Ck & Cu).
  exists domain, w1. refine (conj Hd (conj S (conj Rd (conj Ck (conj Cu _))))).
  rewrite (main_to_finish w domain w1 Hd Hw).
  assert (env_kept w
            (after_chunks (chunks_of MAX_URLS (html_files_in (cwd w))) domain w1))
    as K.
  { pose proof (write_chunks_run (chunks_of MAX_URLS (html_files_in (cwd w)))
                                 domain [] w1) as R.
    destruct S as (Scwd & Swd & Srs & Sru).
    rewrite write_chunks_ok in R.
    - destruct R as (_ & _ & K & _).
      refine (env_kept_trans _ _ _ _ K).
      apply same_files_env_kept. repeat split; assumption.
    - rewrite Srs, Sru. fold (created_in w). rewrite <- Hw.
      apply forallb_pointwise. intros m. unfold writable.
      now rewrite Scwd, Swd. }
  apply finish_ok; rewrite (env_kept_writable _ _ _ K); assumption.
Qed.

Lemma created_in_via (w w1 : World) :
  same_files w w1 ->
  new_names (random_source w1) (random_used w1)
            (length (chunks_of MAX_URLS (html_files_in (cwd w))))
  = created_in w.
Proof. intros (_ & _ & -> & ->). reflexivity. Qed.



(** ** What a run leaves alone *)




(** ** Where the chunks end up *)

(** X6.  After a run in which no call fails, the fragment drawn for the
    [i]-th chunk holds the document of that chunk, dated by the [i]-th
    reading of the clock, unless a later chunk drew the same name; names
    are never checked against each other, so with equal names the later
    chunk replaces the earlier one. *)
Theorem fragments_hold_their_chunks (w : World) (Hio : io_ok w = true) :
  exists w' domain,
    main w = (Ok tt, w')
    /\ fst (get_domain_from_cname w) = Ok domain
    /\ length (created_in w)
       = length (chunks_of MAX_URLS (html_files_in (cwd w)))
    /\ forall (i : nat) (chunk : list string) (n : string),
        chunks_of MAX_URLS (html_files_in (cwd w)) !! i = Some chunk ->
        created_in w !! i = Some n ->
        n ∉ drop (S i) (created_in w) ->
        Fs.lookup n (cwd w')
        = Some (Fs.File n (chunk_document chunk domain
                                          (clock w (i + clock_used w)))).
Proof.
  destruct (main_explicit w Hio) as (domain & w1 & Hd & S & _ & Ck & Cu & Hm).
  eexists _, domain. split; [exact Hm |]. split; [now rewrite Hd |].
  split; [apply new_names_length |].
  intros i chunk n Hc Hn Hlater.
  pose proof (created_in_via w w1 S) as Ecr.
  cbn [after_finish print snd set_cwd cwd].
  assert (n = name_at (random_source w) (12 * i + random_used w)) as En.
  { unfold created_in in Hn. now apply new_names_lookup in Hn. }
  destruct (name_at_not_fixed (random_source w) (12 * i + random_used w))
    as [Ns Nr].
  rewrite <- En in Ns, Nr.
  rewrite lookup_put_ne by congruence. rewrite lookup_put_ne by congruence.
  rewrite (after_chunks_content _ domain w1 i chunk n Hc).
  - now rewrite Ck, Cu.
  - now rewrite Ecr.
  - now rewrite Ecr.
Qed.

Lemma fragments_hold_their_chunks_witness :
  exists w',
    main site_world = (Ok tt, w')
    /\ Fs.lookup "sm_abcdefghijkl.xml" (cwd w')
       = Some (Fs.File "sm_abcdefghijkl.xml"
                 (chunk_document ["b.html"; "a/"] "example.org" "2024-05-01")).
Proof.
  destruct (fragments_hold_their_chunks site_world eq_refl)
    as (w' & domain & Hm & Hd & _ & C).
  exists w'. split; [exact Hm |].
  vm_compute in Hd. injection Hd as <-.
  rewrite (C 0 ["b.html"; "a/"] "sm_abcdefghijkl.xml");
    [reflexivity | vm_compute; reflexivity | vm_compute; reflexivity |].
  vm_compute. apply not_elem_of_nil.
Defined.

(** ** What the next run will find *)



(** ** What a run prints and uses up *)

(** X8.  A run in which no call fails prints, after the warning of the
    resolver if there is one, one line per fragment in the order of
    creation and then the summary line.  The number in the summary is
    the number of old names plus the number of new ones, which is at
    least the number of entries of the index.  The run draws twelve
    random numbers and reads the clock once for every chunk. *)
Theorem run_output (w : World) (Hio : io_ok w = true) :
  exists w' domain w1,
    main w = (Ok tt, w')
    /\ get_domain_from_cname w = (Ok domain, w1)
    /\ stdout w'
       = stdout w1
         ++ map (fun n => "Generated new chunk: " +:+ n) (created_in w)
         ++ [summary_line (length (existing_sitemaps_in (cwd w))
                           + length (created_in w))]
    /\ length (sorted_set (existing_sitemaps_in (cwd w) ++ created_in w))
       <= length (existing_sitemaps_in (cwd w)) + length (created_in w)
    /\ random_used w'
       = 12 * length (chunks_of MAX_URLS (html_files_in (cwd w))) + random_used w
    /\ clock_used w'
       = length (chunks_of MAX_URLS (html_files_in (cwd w))) + clock_used w.
Proof.
  destruct (main_explicit w Hio) as (domain & w1 & Hd & S & _ & Ck & Cu & Hm).
  eexists _, domain, w1. split; [exact Hm |]. split; [exact Hd |].
  pose proof (created_in_via w w1 S) as Ecr.
  destruct S as (_ & _ & _ & Sru).
  destruct (after_chunks_kept (chunks_of MAX_URLS (html_files_in (cwd w)))
                              domain w1) as (_ & _ & _ & Ru & _ & Cu').
  cbn [after_finish print snd set_cwd stdout random_used clock_used].
  rewrite after_chunks_stdout, Ecr, length_app, Ru, Cu', Sru, Cu.
  split; [now rewrite <- app_assoc |].
  split; [| split; reflexivity].
  rewrite <- length_app. apply sorted_set_length.
Qed.

Lemma run_output_witness :
  exists w',
    main site_world = (Ok tt, w')
    /\ stdout w'
       = ["Generated new chunk: sm_abcdefghijkl.xml";
          "Updated sitemap.xml with 2 total sitemap files."].
Proof.
  destruct (run_output site_world eq_refl)
    as (w' & domain & w1 & Hm & Hd & Hs & _).
  exists w'. split; [exact Hm |].
  vm_compute in Hd. injection Hd as <- <-.
  rewrite Hs. vm_compute. reflexivity.
Defined.

(** ** A refused index *)

Lemma loop_keeps (w w1 : World) (domain : string) :
  same_files w w1 ->
  forallb (writable w) (created_in w) = true ->
  env_kept w (after_chunks (chunks_of MAX_URLS (html_files_in (cwd w))) domain w1)
  /\ Forall
       (fun n =>
          is_file n (cwd (after_chunks
                            (chunks_of MAX_URLS (html_files_in (cwd w)))
                            domain w1)) = true)
       (created_in w).
Proof.
  intros S Hw.
  pose proof (write_chunks_run (chunks_of MAX_URLS (html_files_in (cwd w)))
                               domain [] w1) as R.
  pose proof (same_files_env_kept _ _ S) as K1.
  destruct S as (Scwd & Swd & Srs & Sru).
  rewrite write_chunks_ok in R.
  - rewrite Srs, Sru in R. fold (created_in w) in R.
    destruct R as (_ & _ & K & F).
    split; [exact (env_kept_trans _ _ _ K1 K) | exact F].
  - rewrite Srs, Sru. fold (created_in w). rewrite <- Hw.
    apply forallb_pointwise. intros m. now apply env_kept_writable.
Qed.

(** X9.  Nothing is undone when the index cannot be written: if [CNAME]
    and the fragments make no trouble but [sitemap.xml] cannot be opened
    for writing, [main] ends in an exception with all fragments of the
    run written, the lines for them printed, and [sitemap.xml] and
    [robots.txt] as they were, so the new fragments are in no index. *)
Theorem refused_index_leaves_fragments (w : World)
  (Hc : cname_ok w = true)
  (Hw : forallb (writable w) (created_in w) = true)
  (Hs : writable w "sitemap.xml" = false) :
  exists e w' domain w1,
    main w = (Raise e, w')
    /\ get_domain_from_cname w = (Ok domain, w1)
    /\ Forall (fun n => is_file n (cwd w') = true) (created_in w)
    /\ Fs.lookup "sitemap.xml" (cwd w') = Fs.lookup "sitemap.xml" (cwd w)
    /\ Fs.lookup "robots.txt" (cwd w') = Fs.lookup "robots.txt" (cwd w)
    /\ stdout w'
       = stdout w1 ++ map (fun n => "Generated new chunk: " +:+ n) (created_in w).
Proof.
  destruct (get_domain_ok w Hc) as (domain & w1 & Hd & S & _).
  destruct (loop_keeps w w1 domain S Hw) as [K F].
  pose proof (created_in_via w w1 S) as Ecr.
  destruct (finish_index_refused domain
              (existing_sitemaps_in (cwd w) ++ created_in w)
              (after_chunks (chunks_of MAX_URLS (html_files_in (cwd w))) domain w1))
    as [e E].
  { now rewrite (env_kept_writable _ _ _ K). }
  exists e, (after_chunks (chunks_of MAX_URLS (html_files_in (cwd w))) domain w1),
    domain, w1.
  split; [now rewrite (main_to_finish w domain w1 Hd Hw) |].
  split; [exact Hd |]. split; [exact F |].
  destruct (new_names_not_fixed (random_source w) 
              (length (chunks_of MAX_URLS (html_files_in (cwd w))))
              (random_used w)) as [Ns Nr].
  destruct S as (Scwd & _).
  split; [| split].
  - rewrite after_chunks_frame by (now rewrite Ecr). now rewrite Scwd.
  - rewrite after_chunks_frame by (now rewrite Ecr). now rewrite Scwd.
  - now rewrite after_chunks_stdout, Ecr.
Qed.

Lemma refused_index_leaves_fragments_witness :
  exists e w',
    main locked_index_world = (Raise e, w')
    /\ is_file "sm_abcdefghijkl.xml" (cwd w') = true
    /\ Fs.lookup "sitemap.xml" (cwd w') = None.
Proof.
  destruct (refused_index_leaves_fragments locked_index_world
              eq_refl eq_refl eq_refl)
    as (e & w' & domain & w1 & Hm & _ & F & Hs & _).
  exists e, w'. split; [exact Hm |]. split; [| exact Hs].
  rewrite List.Forall_forall in F. apply F. vm_compute. now left.
Defined.

(** ** The walk and the directories named [.git] *)

Lemma list_remove_elem (x m : string) (l : list string) :
  NoDup l -> (m ∈ Fs.list_remove x l <-> m ∈ l /\ m <> x).
Proof.
  induction l as [|y l IH]; intros Hnd; cbn [Fs.list_remove].
  - rewrite elem_of_nil. tauto.
  - apply NoDup_cons in Hnd. destruct Hnd as [Hy Hnd].
    destruct (String.eqb y x) eqn:E.
    + apply String.eqb_eq in E. subst y. rewrite elem_of_cons. split.
      * intros H. split; [now right | congruence].
      * intros [[-> | H] Hne]; [congruence | exact H].
    + apply String.eqb_neq in E. rewrite !elem_of_cons, (IH Hnd). split.
      * intros [-> | [H Hne]]; auto.
      * intros [[-> | H] Hne]; auto.
Qed.

Lemma skip_git_elem (dirs : list string) (m : string) :
  NoDup dirs -> (m ∈ skip_git dirs <-> m ∈ dirs /\ m <> ".git").
Proof.
  intros Hnd. unfold skip_git.
  destruct (bool_decide (".git" ∈ dirs)) eqn:B.
  - now apply list_remove_elem.
  - apply bool_decide_eq_false in B. split; [| tauto].
    intros H. split; [exact H | congruence].
Qed.

Lemma flat_map_pointwise {A B} (f g : A -> list B) (l : list A) :
  (forall a, In a l -> f a = g a) -> flat_map f l = flat_map g l.
Proof.
  induction l as [|a l IH]; intros H; [reflexivity |].
  cbn [flat_map]. rewrite (H a) by now left.
  rewrite IH; [reflexivity |]. intros b Hb. apply H. now right.
Qed.

Lemma flat_map_flat_map {A B C} (f : B -> list C) (g : A -> list B) (l : list A) :
  flat_map f (flat_map g l) = flat_map (fun a => flat_map f (g a)) l.
Proof.
  induction l as [|a l IH]; [reflexivity |].
  cbn [flat_map]. now rewrite flat_map_app, IH.
Qed.

Lemma dir_names_elem (es : list Fs.entry) (m : string) (sub : list Fs.entry) :
  In (Fs.Dir m sub) es -> m ∈ Fs.dir_names es.
Proof.
  intros H. unfold Fs.dir_names.
  apply list_elem_of_In, in_map_iff. exists (Fs.Dir m sub).
  split; [reflexivity |].
  apply list_elem_of_In, list_elem_of_filter. split; [exact I |].
  now apply list_elem_of_In.
Qed.

(** With distinct directory names the walk enters every sub-directory
    but the one named [.git]. *)
Lemma walk_from_skip_git (top n : string) (es : list Fs.entry) :
  NoDup (Fs.dir_names es) ->
  Fs.walk_from skip_git top (Fs.Dir n es)
  = (top, Fs.dir_names es, Fs.file_names es)
      :: flat_map
           (fun d =>
              if Fs.is_dir d && negb (is_git_dir d)
              then Fs.walk_from skip_git (Fs.path_join top (Fs.name_of d)) d
              else [])
           es.
Proof.
  intros Hnd. cbn [Fs.walk_from]. f_equal.
  apply flat_map_pointwise. intros [m c | m sub] Hd; [reflexivity |].
  cbn [Fs.is_dir is_git_dir Fs.name_of andb].
  destruct (String.eqb m ".git") eqn:E.
  - apply String.eqb_eq in E. rewrite bool_decide_eq_false_2; [reflexivity |].
    rewrite (skip_git_elem _ _ Hnd). tauto.
  - apply String.eqb_neq in E. rewrite bool_decide_eq_true_2; [reflexivity |].
    rewrite (skip_git_elem _ _ Hnd). split; [| exact E].
    exact (dir_names_elem es m sub Hd).
Qed.

Lemma erase_git_shape (e : Fs.entry) :
  Fs.name_of (erase_git e) = Fs.name_of e
  /\ Fs.is_dir (erase_git e) = Fs.is_dir e
  /\ is_git_dir (erase_git e) = is_git_dir e.
Proof. destruct e; repeat split. Qed.

Lemma file_names_cons (d : Fs.entry) (es : list Fs.entry) :
  Fs.file_names (d :: es)
  = if Fs.is_dir d then Fs.file_names es else Fs.name_of d :: Fs.file_names es.
Proof. destruct d; reflexivity. Qed.

Lemma dir_names_cons (d : Fs.entry) (es : list Fs.entry) :
  Fs.dir_names (d :: es)
  = if Fs.is_dir d then Fs.name_of d :: Fs.dir_names es else Fs.dir_names es.
Proof. destruct d; reflexivity. Qed.

Lemma erased_names (es : list Fs.entry) :
  Fs.file_names (flat_map (fun d => if is_git_dir d then [] else [erase_git d]) es)
  = Fs.file_names es
  /\ Fs.dir_names (flat_map (fun d => if is_git_dir d then [] else [erase_git d]) es)
     `sublist_of` Fs.dir_names es.
Proof.
  induction es as [|d es [IHf IHd]]; [split; reflexivity |].
  cbn [flat_map]. destruct (erase_git_shape d) as (En & Ed & _).
  destruct (is_git_dir d) eqn:G.
  - cbn [app]. destruct d as [m c | m sub]; [discriminate G |].
    rewrite file_names_cons, dir_names_cons. cbn [Fs.is_dir].
    split; [exact IHf | now apply sublist_cons].
  - cbn [app]. rewrite !file_names_cons, !dir_names_cons, Ed, En, IHf.
    split; [reflexivity |].
    destruct (Fs.is_dir d); [now apply sublist_skip | exact IHd].
Qed.

Lemma html_of_item_files (top top' : string) (dirs dirs' files : list string) :
  top = top' -> html_of_item (top, dirs, files) = html_of_item (top', dirs', files).
Proof. now intros ->. Qed.

Lemma pages_ignore_git (e : Fs.entry) :
  forall top,
    dirs_distinct e = true ->
    flat_map html_of_item (Fs.walk_from skip_git top (erase_git e))
    = flat_map html_of_item (Fs.walk_from skip_git top e).
Proof.
  induction e as [n c | n es IH] using entry_induction; intros top Hd;
    [reflexivity |].
  cbn [dirs_distinct] in Hd. apply andb_true_iff in Hd. destruct Hd as [Hnd Hds].
  apply bool_decide_eq_true in Hnd.
  cbn [erase_git]. destruct (erased_names es) as [Ef Ed].
  rewrite walk_from_skip_git by (eapply sublist_NoDup; eassumption).
  rewrite walk_from_skip_git by exact Hnd.
  cbn [flat_map]. rewrite Ef. f_equal.
  match goal with
  | |- flat_map ?h (flat_map ?g' (flat_map ?ef es)) = flat_map ?h (flat_map ?g es) =>
      rewrite (flat_map_flat_map g' ef es), (flat_map_flat_map h _ es),
        (flat_map_flat_map h g es)
  end.
  apply flat_map_pointwise. intros d Hin. cbv beta.
  rewrite List.Forall_forall in IH. rewrite forallb_forall in Hds.
  destruct (erase_git_shape d) as (En & Edir & Eg).
  destruct (is_git_dir d) eqn:G.
  - cbn [flat_map]. now rewrite andb_false_r.
  - cbn [flat_map]. rewrite app_nil_r, Edir, Eg, En.
    destruct (Fs.is_dir d); [| reflexivity]. cbn [andb negb].
    apply (IH d Hin). now apply Hds.
Qed.

(** X10.  When no directory has two sub-directories of the same name,
    [get_all_html_files] returns the same URL paths, in the same order,
    as for the tree from which every directory named [.git], at any
    depth, is taken away with all it holds: nothing below such a
    directory is ever reported. *)
Theorem git_directories_are_skipped (es : list Fs.entry)
  (Hd : dirs_distinct (Fs.Dir "." es) = true) :
  html_files_in es
  = html_files_in (flat_map (fun d => if is_git_dir d then [] else [erase_git d]) es).
Proof.
  unfold html_files_in, Fs.walk. symmetry.
  exact (pages_ignore_git (Fs.Dir "." es) "." Hd).
Qed.

Lemma git_directories_are_skipped_witness :
  html_files_in site1
  = html_files_in
      [ Fs.File "CNAME" ("example.org" +:+ LF);
        Fs.Dir "a" [Fs.File "index.html" "<html/>"];
        Fs.File "b.html" "<html/>";
        Fs.File "sm_old1.xml" "" ].
Proof. exact (git_directories_are_skipped site1 eq_refl). Defined.

(** ** One URL path for every page *)






(** ** The URLs of the discovered pages *)

Lemma starts_with_slash_prefix (s : string) (k : nat) :
  starts_with_slash s = false ->
  starts_with_slash (String.substring 0 k s) = false.
Proof. destruct s as [|c s], k as [|k]; cbn; auto. Qed.

Lemma url_path_of_start (p : string) :
  starts_with_slash p = false -> starts_with_slash (url_path_of p) = false.
Proof.
  intros H. unfold url_path_of, PyStr.drop_last.
  destruct (PyStr.endswith p "index.html"); [| exact H].
  now apply starts_with_slash_prefix.
Qed.

Lemma lstrip_slash_fixed (s : string) :
  starts_with_slash s = false -> PyStr.lstrip_slash s = s.
Proof.
  intros H. apply lstrip_by_fixed. destruct s as [|c s]; [exact I |].
  cbn [starts_with_slash] in H. now rewrite Ascii.eqb_sym.
Qed.

(** X12.  In a tree whose names are non-empty and hold no slash, no URL
    path that [get_all_html_files] returns starts with a slash, so the
    stripping in [create_sitemap_chunk] leaves these paths as they are
    and the URL of a page is [https://], the domain, a slash and the URL
    path; an [index.html] at the top gives the empty path and the URL of
    the site itself. *)
Theorem discovered_urls (es : list Fs.entry) (domain u : string)
  (Hes : forallb entry_ok es = true) (Hu : In u (html_files_in es)) :
  PyStr.lstrip_slash u = u
  /\ full_url domain u = "https://" +:+ domain +:+ "/" +:+ u
  /\ (forall c : string, html_files_in [Fs.File "index.html" c] = [""])
  /\ full_url domain "" = "https://" +:+ domain +:+ "/".
Proof.
  destruct (discovered_paths es u Hes Hu) as (cs & file & Hcs & Hf & _ & ->).
  destruct (normalised_path_clean cs file Hcs Hf) as [_ Hs].
  pose proof (lstrip_slash_fixed _ (url_path_of_start _ Hs)) as L.
  split; [exact L |]. split; [unfold full_url; now rewrite L |].
  split; [intros c; vm_compute; reflexivity |].
  unfold full_url. cbn. reflexivity.
Qed.

Lemma discovered_urls_witness :
  full_url "example.org" "a/" = "https://example.org/a/".
Proof.
  apply (discovered_urls site1 "example.org" "a/").
  - vm_compute. reflexivity.
  - vm_compute. auto.
Defined.

(** ** Names of any length *)

Lemma generate_random_name_any (n : nat) (w : World) :
  generate_random_name n w
  = (Ok ("sm_" +:+ token_of (random_source w) (random_used w) n +:+ ".xml"),
     use_random n w).
Proof. unfold generate_random_name, bind. now rewrite random_token_run. Qed.

(** X13.  For every length and every random source [generate_random_name]
    returns [sm_], a token of that many lower-case letters and digits, and
    [.xml]; it consumes one random number per character and never raises.
    The scanner of existing fragments accepts the name unless the length
    is zero: the name [sm_.xml] of an empty token would not be found
    again. *)
Theorem fragment_name_any_length (n : nat) (w : World) :
  exists token,
    generate_random_name n w = (Ok ("sm_" +:+ token +:+ ".xml"), use_random n w)
    /\ String.length token = n
    /\ PyStr.all_chars lower_or_digit token = true
    /\ (Re.match_anchored sitemap_pattern ("sm_" +:+ token +:+ ".xml") = true
        <-> 0 < n).
Proof.
  exists (token_of (random_source w) (random_used w) n).
  pose proof (token_of_length (random_source w) n (random_used w)) as Hl.
  pose proof (token_of_class (random_source w) n (random_used w)) as Hc.
  split; [apply generate_random_name_any |].
  split; [exact Hl |]. split; [exact Hc |]. split.
  - intros H. destruct n as [|n]; [| lia].
    cbn in H. discriminate H.
  - intros Hn. apply scanner_accepts; [| exact Hc].
    intros E. rewrite E in Hl. cbn in Hl. lia.
Qed.
